(** * The sipgate AI Flow webhook of chadd-tools (src/ab/ai-flow-webhook.py)

    A shallow embedding of the answering-machine webhook: the JSON events
    it receives, the session store it keeps, the dispatcher
    [handle_event], the notifier's message format and the HTTP boundary
    [do_POST], followed by the properties of the state machine.

    Modelling conventions.
    - A Python [str] is the list of its Unicode code points ([pystr]).
    - A decoded JSON document is a [json] value; a JSON object is the
      association list of its members, looked up by [dict_get].  Numbers
      are the integers; floats do not occur in the platform's schema and
      are left out.
    - The module-level dict [sessions] is a [gmap] from hashable keys to
      session records.  A record is a Python dict whose keys "caller" and
      "messages" are always present and whose keys "beeped" and "thanked"
      may be absent, hence the [option bool] fields.
    - A raised exception is a [Raise] result.  Every exception of the
      handler is raised before the store is written, so a raising call
      leaves the store as it was.
    - The server is a plain [HTTPServer]: requests are handled one at a
      time, so the lock around the store has no observable effect and a
      run is a sequence of calls.
    - Standard output is taken to encode as UTF-8 with the strict error
      handler (the default under a UTF-8 locale), which the literals of
      the log lines need.  A [print] is then modelled by the one way it
      can fail: a str that holds a lone surrogate cannot be encoded and
      raises UnicodeEncodeError.
    - The request body is the list of the bytes the client sent; a
      connection that breaks while it is read is not modelled. *)

From Stdlib Require Import String Ascii ZArith NArith List Lia.
From stdpp Require Import base option list countable numbers gmap.

Local Open Scope Z_scope.

(** ** Python strings *)

Definition pystr : Type := list N.

(** A literal of ASCII characters. *)
Definition py (s : string) : pystr :=
  map N_of_ascii (list_ascii_of_string s).

(** The characters [str.strip] removes (Python's Unicode whitespace). *)
Definition is_space (c : N) : bool :=
  ((9 <=? c) && (c <=? 13) || (28 <=? c) && (c <=? 32)
   || (c =? 133) || (c =? 160) || (c =? 5760)
   || (8192 <=? c) && (c <=? 8202)
   || (c =? 8232) || (c =? 8233) || (c =? 8239) || (c =? 8287)
   || (c =? 12288))%N.

Fixpoint lstrip (s : pystr) : pystr :=
  match s with
  | c :: s' => if is_space c then lstrip s' else s
  | [] => []
  end.

Definition rstrip (s : pystr) : pystr := rev (lstrip (rev s)).

Definition strip (s : pystr) : pystr := rstrip (lstrip s).

(** Truth value of a Python string or list: non-empty. *)
Definition nonempty {A} (l : list A) : bool :=
  match l with [] => false | _ :: _ => true end.

Fixpoint pystr_eqb (a b : pystr) : bool :=
  match a, b with
  | [], [] => true
  | x :: a', y :: b' => (x =? y)%N && pystr_eqb a' b'
  | _, _ => false
  end.

(** [sep.join(parts)] *)
Fixpoint join (sep : pystr) (parts : list pystr) : pystr :=
  match parts with
  | [] => []
  | [p] => p
  | p :: rest => p ++ sep ++ join sep rest
  end.

(** ** JSON values and exceptions *)

#[warnings="-register-all"]
Inductive json : Type :=
| JNull
| JBool (b : bool)
| JInt (z : Z)
| JStr (s : pystr)
| JList (l : list json)
| JDict (d : list (pystr * json)).

Inductive exn : Type :=
| AttributeError
| TypeError
| ValueError
| JSONDecodeError
| UnicodeDecodeError
| UnicodeEncodeError
| OverflowError
| MemoryError
| OSError.

Inductive result (A : Type) : Type :=
| Ok (a : A)
| Raise (e : exn).
Arguments Ok {A} a.
Arguments Raise {A} e.

#[global] Instance result_ret : MRet result := fun A a => Ok a.
#[global] Instance result_bind : MBind result := fun A B f m =>
  match m with
  | Ok a => f a
  | Raise e => Raise e
  end.

Fixpoint dict_get (k : pystr) (d : list (pystr * json)) : option json :=
  match d with
  | [] => None
  | (k', v) :: d' => if pystr_eqb k' k then Some v else dict_get k d'
  end.

(** [v.get(k, dflt)]: only a dict has the method. *)
Definition py_get (v : json) (k : pystr) (dflt : json) : result json :=
  match v with
  | JDict d => Ok (default dflt (dict_get k d))
  | _ => Raise AttributeError
  end.

(** [v == "literal"] *)
Definition str_eq (v : json) (s : pystr) : bool :=
  match v with
  | JStr t => pystr_eqb t s
  | _ => false
  end.

(** [v.strip()]: only a str has the method. *)
Definition py_strip (v : json) : result pystr :=
  match v with
  | JStr s => Ok (strip s)
  | _ => Raise AttributeError
  end.

(** ** Printing *)

Definition is_surrogate (c : N) : bool := ((55296 <=? c) && (c <=? 57343))%N.

(** [s] can be encoded as UTF-8: it holds no surrogate. *)
Definition encodable (s : pystr) : bool :=
  forallb (fun c => negb (is_surrogate c)) s.

(** A value inside an f-string that is printed: a str is written as it
    is; any other value goes through [repr], which escapes what cannot
    be printed. *)
Definition printable (v : json) : bool :=
  match v with
  | JStr s => encodable s
  | _ => true
  end.

Definition py_print (vs : list json) : result unit :=
  if forallb printable vs then Ok tt else Raise UnicodeEncodeError.

(** ** The session store *)

(** What a dict key hashes to.  [True] and [1] are the same key, as are
    [False] and [0]. *)
Inductive pykey : Type :=
| KNone
| KInt (z : Z)
| KStr (s : pystr).

#[global] Instance pykey_eq_dec : EqDecision pykey.
Proof. solve_decision. Defined.

Definition pykey_enc (k : pykey) : unit + Z + pystr :=
  match k with
  | KNone => inl (inl tt)
  | KInt z => inl (inr z)
  | KStr s => inr s
  end.

Definition pykey_dec (x : unit + Z + pystr) : pykey :=
  match x with
  | inl (inl _) => KNone
  | inl (inr z) => KInt z
  | inr s => KStr s
  end.

#[global] Instance pykey_countable : Countable pykey.
Proof.
  apply (inj_countable' pykey_enc pykey_dec).
  intros []; reflexivity.
Defined.

(** Using a value as a dict key: lists and dicts are unhashable. *)
Definition hash_key (v : json) : result pykey :=
  match v with
  | JNull => Ok KNone
  | JBool b => Ok (KInt (if b then 1 else 0))
  | JInt z => Ok (KInt z)
  | JStr s => Ok (KStr s)
  | JList _ | JDict _ => Raise TypeError
  end.

Record session_data : Type := mk_session {
  caller : json;
  messages : list pystr;
  beeped : option bool;
  thanked : option bool
}.

Record notification : Type := mk_notification {
  n_caller : json;
  n_messages : list pystr
}.

Definition unbekannt : pystr := py "unbekannt".

(** The record the lazy creation of lines 133 and 144 stores. *)
Definition lazy_session : session_data :=
  mk_session (JStr unbekannt) [] None None.

(** [data.get("beeped")] and [data.get("thanked", False)] as truth values. *)
Definition is_beeped (d : session_data) : bool := default false (beeped d).
Definition is_thanked (d : session_data) : bool := default false (thanked d).

(** ** Constants of the module *)

Definition GREETING : pystr :=
  py "Hallo, hier ist der Anrufbeantworter von YuzuHub. "
  ++ py "Wir sind gerade nicht erreichbar. "
  ++ py "Bitte hinterlasse eine Nachricht nach dem Signalton, und wir melden uns bei dir.".

Definition THANKS : pystr :=
  py "Danke f" ++ [252%N] ++ py "r deine Nachricht. Wir melden uns so bald wie m"
  ++ [246%N] ++ py "glich. Tsch" ++ [252%N] ++ py "ss!".

Definition REPROMPT : pystr :=
  py "Hallo? Wenn du eine Nachricht hinterlassen m" ++ [246%N]
  ++ py "chtest, sprich einfach los.".

Definition NO_MESSAGE : pystr := py "  (keine Nachricht hinterlassen)".

(** ** The notifier's text (notify_clawdbot, lines 40-48) *)

Definition msg_text (msgs : list pystr) : pystr :=
  if nonempty msgs
  then join [10%N] (map (fun m => py "  > " ++ m) msgs)
  else NO_MESSAGE.

(** The summary for a caller given as a string and a formatted time. *)
Definition notify_text (who : pystr) (timestamp : pystr)
    (msgs : list pystr) : pystr :=
  [128222%N] ++ py " Anruf auf dem AB" ++ [10%N]
  ++ py "Von: " ++ who ++ [10%N]
  ++ py "Zeit: " ++ timestamp ++ [10%N]
  ++ py "Nachricht:" ++ [10%N] ++ msg_text msgs.

(** ** The dispatcher (FlowHandler.handle_event, lines 103-195) *)

Record outcome : Type := mk_outcome {
  out_sessions : gmap pykey session_data;
  out_action : option json;
  out_notified : list notification
}.

Definition speak (session_id : json) (text : pystr)
    (timeout : option Z) : json :=
  JDict ([(py "type", JStr (py "speak"));
          (py "session_id", session_id);
          (py "text", JStr text)]
         ++ match timeout with
            | Some t => [(py "user_input_timeout_seconds", JInt t)]
            | None => []
            end).

Definition audio (session_id : json) (blob : pystr) : json :=
  JDict [(py "type", JStr (py "audio"));
         (py "session_id", session_id);
         (py "audio", JStr blob)].

Section Dispatcher.

(** The tone read from beep.b64 at start-up; [None] when the file is
    missing. *)
Variable BEEP_AUDIO : option pystr.

Definition beep_loaded : bool :=
  match BEEP_AUDIO with
  | Some blob => nonempty blob
  | None => false
  end.

(** The direction member is read for the log line only. *)
Definition on_session_start (sessions : gmap pykey session_data)
    (session session_id : json) : result outcome :=
  caller ← py_get session (py "from_phone_number") (JStr unbekannt);
  direction ← py_get session (py "direction") (JStr (py "inbound"));
  _ ← py_print [caller; direction];
  k ← hash_key session_id;
  Ok (mk_outcome
        (<[k := mk_session caller [] (Some false) None]> sessions)
        (Some (speak session_id GREETING (Some 30)))
        []).

(** Lines 132-133 and 143-144: create the record when the id is new. *)
Definition ensure_session (k : pykey)
    (sessions : gmap pykey session_data) : gmap pykey session_data :=
  match sessions !! k with
  | Some _ => sessions
  | None => <[k := lazy_session]> sessions
  end.

Definition append_message (text : pystr) (d : session_data) : session_data :=
  mk_session (caller d) (messages d ++ [text]) (beeped d) (thanked d).

Definition set_thanked (d : session_data) : session_data :=
  mk_session (caller d) (messages d) (beeped d) (Some true).

Definition set_beeped (d : session_data) : session_data :=
  mk_session (caller d) (messages d) (Some true) (thanked d).

Definition on_user_speak (sessions : gmap pykey session_data)
    (event session_id : json) : result outcome :=
  raw ← py_get event (py "text") (JStr []);
  text ← py_strip raw;
  _ ← py_print [JStr text];
  k ← hash_key session_id;
  let sessions1 := ensure_session k sessions in
  Ok (mk_outcome
        (if nonempty text then alter (append_message text) k sessions1
         else sessions1)
        None []).

Definition on_user_input_timeout (sessions : gmap pykey session_data)
    (session_id : json) : result outcome :=
  k ← hash_key session_id;
  let sessions1 := ensure_session k sessions in
  let data := default lazy_session (sessions1 !! k) in
  let msgs := messages data in
  let already_thanked := is_thanked data in
  if nonempty msgs && negb already_thanked then
    Ok (mk_outcome
          (alter set_thanked k sessions1)
          (Some (speak session_id THANKS None))
          [mk_notification (caller data) msgs])
  else if negb (nonempty msgs) then
    Ok (mk_outcome sessions1 (Some (speak session_id REPROMPT (Some 15))) [])
  else
    Ok (mk_outcome sessions1 None []).

(** [sessions.pop(session_id, {})]: on an empty dict the default is
    returned before the key is hashed. *)
Definition on_session_end (sessions : gmap pykey session_data)
    (session_id : json) : result outcome :=
  if (size sessions =? 0)%nat then
    Ok (mk_outcome sessions None [mk_notification (JStr unbekannt) []])
  else
    k ← hash_key session_id;
    let data := sessions !! k in
    let msgs := from_option messages [] data in
    let who := from_option caller (JStr unbekannt) data in
    let already_thanked := from_option is_thanked false data in
    Ok (mk_outcome
          (delete k sessions)
          None
          (if already_thanked then [] else [mk_notification who msgs])).

(** [data] is the stored record itself when the id is known, so setting
    its flag writes the store; for an unknown id it is a fresh dict that
    is dropped on return. *)
Definition on_assistant_speech_ended (sessions : gmap pykey session_data)
    (session_id : json) : result outcome :=
  k ← hash_key session_id;
  let data := sessions !! k in
  if negb (from_option is_beeped false data) && beep_loaded then
    Ok (mk_outcome
          (alter set_beeped k sessions)
          (Some (audio session_id (default [] BEEP_AUDIO)))
          [])
  else
    Ok (mk_outcome sessions None []).

Definition handle_event (sessions : gmap pykey session_data)
    (event : json) : result outcome :=
  event_type ← py_get event (py "type") (JStr []);
  session ← py_get event (py "session") (JDict []);
  session_id ← py_get session (py "id") (JStr []);
  if str_eq event_type (py "session_start") then
    on_session_start sessions session session_id
  else if str_eq event_type (py "user_speak") then
    on_user_speak sessions event session_id
  else if str_eq event_type (py "user_input_timeout") then
    on_user_input_timeout sessions session_id
  else if str_eq event_type (py "session_end") then
    on_session_end sessions session_id
  else if str_eq event_type (py "assistant_speak") then
    Ok (mk_outcome sessions None [])
  else if str_eq event_type (py "assistant_speech_ended") then
    on_assistant_speech_ended sessions session_id
  else
    Ok (mk_outcome sessions None []).

End Dispatcher.

(** ** The HTTP boundary (FlowHandler.do_POST, lines 68-101) *)

(** [int(s)] for a header value.  Around the number it skips the ASCII
    whitespace and, of the characters from 127 on, the Unicode spaces
    (which it first turns into blanks; the separators 28 to 31 stay as
    they are and are not skipped).  Then come an optional sign and
    decimal digits with single underscores between them, at most 4300
    digits.  Header values are Latin-1 decoded, so the only decimal
    digits are ASCII.  [None] stands for ValueError. *)
Definition is_digit (c : N) : bool := ((48 <=? c) && (c <=? 57))%N.

Definition is_ascii_space (c : N) : bool :=
  ((9 <=? c) && (c <=? 13) || (c =? 32))%N.

Definition is_int_space (c : N) : bool :=
  is_ascii_space c || ((127 <=? c)%N && is_space c).

Fixpoint ltrim (space : N → bool) (s : pystr) : pystr :=
  match s with
  | c :: s' => if space c then ltrim space s' else s
  | [] => []
  end.

Definition trim (space : N → bool) (s : pystr) : pystr :=
  rev (ltrim space (rev (ltrim space s))).

Fixpoint digits_value (acc : Z) (after_digit : bool) (s : pystr) : option Z :=
  match s with
  | [] => if after_digit then Some acc else None
  | c :: s' =>
      if is_digit c then
        digits_value (10 * acc + (Z.of_N c - 48)) true s'
      else if (c =? 95)%N && after_digit then
        digits_value acc false s'
      else None
  end.

Definition int_max_str_digits : nat := 4300.

Definition digits_within_limit (s : pystr) : option Z :=
  if (length (List.filter is_digit s) <=? int_max_str_digits)%nat
  then digits_value 0 false s
  else None.

Definition py_int (s : pystr) : option Z :=
  match trim is_int_space s with
  | 43%N :: r => digits_within_limit r
  | 45%N :: r => Z.opp <$> digits_within_limit r
  | r => digits_within_limit r
  end.

(** [rfile.read(n)] on the buffered reader of the connection: a length
    that does not fit an index ([maxsize] is sys.maxsize) raises
    OverflowError, a negative length other than -1 raises ValueError,
    -1 reads everything left, and a length for which no buffer can be
    had ([memory] is the longest that can) raises MemoryError;
    otherwise [n] bytes are read, or fewer when the stream ends. *)
Definition rfile_read (maxsize memory : N) (n : Z) (stream : list N)
    : result (list N) :=
  if (Z.of_N maxsize <? n) || (n <? - Z.of_N maxsize - 1) then
    Raise OverflowError
  else if n <? -1 then Raise ValueError
  else if n =? -1 then Ok stream
  else if Z.of_N memory <? n then Raise MemoryError
  else Ok (take (Z.to_nat n) stream).

(** [v[:12]] inside the log line: strings and lists can be sliced, a
    dict cannot be indexed by a slice, which is unhashable (from
    Python 3.12 on a slice can be hashed and the dict raises KeyError
    instead), the other values are not subscriptable. *)
Definition py_slice12 (v : json) : result json :=
  match v with
  | JStr s => Ok (JStr (take 12 s))
  | JList l => Ok (JList (take 12 l))
  | _ => Raise TypeError
  end.

(** The parts of a request the handler reads. *)
Record request : Type := mk_request {
  content_length : option pystr;
  x_api_token : option pystr;
  rfile : list N
}.

(** What the client gets: a status line with an optional Content-Type
    header and an optional JSON body, or, when the handler raised, no
    response at all. *)
Inductive reply : Type :=
| Responded (status : Z) (content_type : option pystr) (body : option json)
| Crashed (e : exn).

(** The outcome of a request: the store and the notifications sent, the
    reply, and whether [handle_event] was called. *)
Record post_outcome : Type := mk_post {
  post_sessions : gmap pykey session_data;
  post_reply : reply;
  post_notified : list notification;
  post_dispatched : bool
}.

(** [if action:] *)
Definition action_truthy (a : option json) : bool :=
  match a with
  | Some (JDict d) => nonempty d
  | _ => false
  end.

Section Boundary.

Variable SECRET : pystr.
Variable BEEP_AUDIO : option pystr.
(** [json.loads] on the request body. *)
Variable json_loads : list N -> result json.
(** sys.maxsize, and the longest buffer a read can be given. *)
Variable maxsize : N.
Variable memory : N.

Definition authorized (req : request) : bool :=
  if nonempty SECRET
  then pystr_eqb (default [] (x_api_token req)) SECRET
  else true.

(** Lines 86-88: the log line reads the type and the session id,
    slices the id and prints both. *)
Definition log_line (event : json) : result unit :=
  event_type ← py_get event (py "type") (JStr []);
  session ← py_get event (py "session") (JDict []);
  session_id ← py_get session (py "id") (JStr []);
  shown ← py_slice12 session_id;
  py_print [event_type; shown].

Definition do_POST (sessions : gmap pykey session_data)
    (req : request) : post_outcome :=
  match from_option py_int (Some 0) (content_length req) with
  | None => mk_post sessions (Crashed ValueError) [] false
  | Some length =>
      match rfile_read maxsize memory length (rfile req) with
      | Raise e => mk_post sessions (Crashed e) [] false
      | Ok body =>
          if negb (authorized req) then
            mk_post sessions (Responded 401 None None) [] false
          else
            match json_loads body with
            | Raise JSONDecodeError =>
                mk_post sessions (Responded 400 None None) [] false
            | Raise e => mk_post sessions (Crashed e) [] false
            | Ok event =>
                match log_line event with
                | Raise e => mk_post sessions (Crashed e) [] false
                | Ok _ =>
                    match handle_event BEEP_AUDIO sessions event with
                    | Raise e => mk_post sessions (Crashed e) [] true
                    | Ok out =>
                        mk_post (out_sessions out)
                          (if action_truthy (out_action out)
                           then Responded 200 (Some (py "application/json"))
                                  (out_action out)
                           else Responded 204 None None)
                          (out_notified out) true
                    end
                end
            end
      end
  end.

End Boundary.

(** ** Runs: a sequence of events handled one after the other *)

Record trace : Type := mk_trace {
  tr_sessions : gmap pykey session_data;
  tr_actions : list (option json);
  tr_notified : list notification
}.

Fixpoint run (beep : option pystr) (sessions : gmap pykey session_data)
    (events : list json) : result trace :=
  match events with
  | [] => Ok (mk_trace sessions [] [])
  | e :: rest =>
      out ← handle_event beep sessions e;
      tr ← run beep (out_sessions out) rest;
      Ok (mk_trace (tr_sessions tr)
            (out_action out :: tr_actions tr)
            (out_notified out ++ tr_notified tr))
  end.

(** ** Building events, for the examples *)

Definition mk_event (type : string) (id : string)
    (more : list (pystr * json)) : json :=
  JDict ((py "type", JStr (py type))
         :: (py "session", JDict [(py "id", JStr (py id))]) :: more).

Definition ev_start (id phone : string) : json :=
  JDict [(py "type", JStr (py "session_start"));
         (py "session", JDict [(py "id", JStr (py id));
                               (py "from_phone_number", JStr (py phone))])].
Definition ev_speak (id text : string) : json :=
  mk_event "user_speak" id [(py "text", JStr (py text))].
Definition ev_timeout (id : string) : json := mk_event "user_input_timeout" id [].
Definition ev_end (id : string) : json := mk_event "session_end" id [].
Definition ev_speech_ended (id : string) : json :=
  mk_event "assistant_speech_ended" id [].

Definition notified_count (r : result trace) : option nat :=
  match r with
  | Ok tr => Some (length (tr_notified tr))
  | Raise _ => None
  end.

(** ** Reading events *)

(** The first three lines of [handle_event]: type, session object and
    session id, with their defaults. *)
Definition event_header (event : json) : result (json * json * json) :=
  event_type ← py_get event (py "type") (JStr []);
  session ← py_get event (py "session") (JDict []);
  session_id ← py_get session (py "id") (JStr []);
  Ok (event_type, session, session_id).

(** [event] is an event of type [ty] whose session id is the string
    [sid] (the empty string when the id is missing). *)
Definition event_is (ty sid : pystr) (event : json) : bool :=
  match event_header event with
  | Ok (t, _, JStr s) => str_eq t ty && pystr_eqb s sid
  | _ => false
  end.

(** [event] is a user_speak event for [sid] whose text is a string (the
    empty string when the member is missing): that text. *)
Definition utterance (sid : pystr) (event : json) : option pystr :=
  if event_is (py "user_speak") sid event then
    match py_get event (py "text") (JStr []) with
    | Ok (JStr t) => Some t
    | _ => None
    end
  else None.

(** The wire schema of section 6 with every member optional: an object
    whose "session", when present, is an object, whose session id, when
    present, is a string, and whose "text", when present, is a string. *)
Definition well_typed (event : json) : bool :=
  match event_header event with
  | Ok (_, _, JStr _) =>
      match py_get event (py "text") (JStr []) with
      | Ok (JStr _) => true
      | _ => false
      end
  | _ => false
  end.

(** None of the strings [handle_event] prints for [event] holds a
    lone surrogate: the caller and the direction when the event is a
    session_start, the stripped text when it is a user_speak. *)
Definition prints_ok (event : json) : bool :=
  match event_header event with
  | Ok (ty, session, sid) =>
      if str_eq ty (py "session_start") then
        match py_get session (py "from_phone_number") (JStr unbekannt),
              py_get session (py "direction") (JStr (py "inbound")) with
        | Ok c, Ok dir => printable c && printable dir
        | _, _ => false
        end
      else if str_eq ty (py "user_speak") then
        match py_get event (py "text") (JStr []) with
        | Ok (JStr t) => encodable (strip t)
        | _ => true
        end
      else true
  | Raise _ => false
  end.

(** The log line of do_POST can be printed for [event]: the session id
    can be sliced, and neither the type nor the first twelve characters
    of the id hold a lone surrogate. *)
Definition loggable (event : json) : bool :=
  match event_header event with
  | Ok (ty, session, sid) =>
      printable ty
      && match py_slice12 sid with
         | Ok shown => printable shown
         | Raise _ => false
         end
  | Raise _ => false
  end.

(** [event] replaces or removes the record stored under [k]: a
    session_start or session_end whose id hashes to [k]. *)
Definition resets (k : pykey) (event : json) : bool :=
  match event_header event with
  | Ok (t, _, sid) =>
      (str_eq t (py "session_start") || str_eq t (py "session_end"))
      && match hash_key sid with
         | Ok k' => bool_decide (k' = k)
         | Raise _ => false
         end
  | Raise _ => false
  end.

(** The event types whose branch stores a record for an unknown id. *)
Definition lazily_creates (event_type : json) : bool :=
  str_eq event_type (py "session_start")
  || str_eq event_type (py "user_speak")
  || str_eq event_type (py "user_input_timeout").

(** ** Reading the store *)

Definition messages_of (sessions : gmap pykey session_data)
    (k : pykey) : list pystr :=
  from_option messages [] (sessions !! k).

Definition thanked_of (sessions : gmap pykey session_data)
    (k : pykey) : bool :=
  from_option is_thanked false (sessions !! k).

Definition beeped_of (sessions : gmap pykey session_data)
    (k : pykey) : bool :=
  from_option is_beeped false (sessions !! k).

(** A flag of the record under [k] is up. *)
Definition flag_up (flag : session_data → bool)
    (sessions : gmap pykey session_data) (k : pykey) : Prop :=
  from_option flag false (sessions !! k) = true.

(** The store after one event, and after a sequence of events; an event
    whose handling raises leaves it as it was. *)
Definition store_after (beep : option pystr)
    (sessions : gmap pykey session_data) (event : json)
    : gmap pykey session_data :=
  match handle_event beep sessions event with
  | Ok out => out_sessions out
  | Raise _ => sessions
  end.

Definition store_after_all (beep : option pystr)
    (sessions : gmap pykey session_data) (events : list json)
    : gmap pykey session_data :=
  fold_left (store_after beep) events sessions.

(** The stores a sequence of events goes through, the first one
    included, and the values a flag of the record under [k] takes along
    them ([false] while there is no record). *)
Fixpoint stores_along (beep : option pystr)
    (sessions : gmap pykey session_data) (events : list json)
    : list (gmap pykey session_data) :=
  sessions ::
  match events with
  | [] => []
  | e :: rest => stores_along beep (store_after beep sessions e) rest
  end.

Definition flag_history (flag : session_data → bool) (beep : option pystr)
    (sessions : gmap pykey session_data) (events : list json)
    (k : pykey) : list bool :=
  map (fun s => from_option flag false (s !! k))
      (stores_along beep sessions events).

(** [event] is a well-typed event of the call [sid] whose printed
    strings can be printed, other than its session_start and
    session_end. *)
Definition in_call (sid : pystr) (event : json) : bool :=
  well_typed event && prints_ok event
  && match event_header event with
     | Ok (t, _, JStr s) =>
         pystr_eqb s sid
         && negb (str_eq t (py "session_start"))
         && negb (str_eq t (py "session_end"))
     | _ => false
     end.

(** The messages the store keeps of a sequence of utterances. *)
Definition kept (texts : list pystr) : list pystr :=
  filter (fun t => nonempty t = true) (map strip texts).

Definition blank (t : pystr) : bool := forallb is_space t.

(** ** A sample configuration, sample bodies and sample stores *)

Definition BEEP : option pystr := Some (py "UklGRiQAAABXQVZFZm10").

Definition sample_secret : pystr := py "s3cret".

(** sys.maxsize of a 64-bit interpreter, and a gigabyte of buffer. *)
Definition sample_maxsize : N := 2 ^ 63 - 1.
Definition sample_memory : N := 2 ^ 30.

Definition quoted (s : string) : list N := [34%N] ++ py s ++ [34%N].

(** The bodies [{}], [{"type":"session_start"}] and the truncated [{]. *)
Definition body_empty_object : list N := py "{}".
Definition body_session_start : list N :=
  py "{" ++ quoted "type" ++ py ":" ++ quoted "session_start" ++ py "}".
Definition body_truncated : list N := py "{".

(** [json.loads] tabulated on the sample bodies: it decodes the two
    documents; the truncated one raises JSONDecodeError, and so does,
    in this table only, any body that is not listed. *)
Definition sample_loads (body : list N) : result json :=
  if pystr_eqb body body_empty_object then Ok (JDict [])
  else if pystr_eqb body body_session_start then
    Ok (JDict [(py "type", JStr (py "session_start"))])
  else Raise JSONDecodeError.

(** The store after the session_start of call "s1". *)
Definition started : gmap pykey session_data :=
  store_after BEEP ∅ (ev_start "s1" "+491701234567").

Definition s1 : pykey := KStr (py "s1").

(** The store after call "s1" has left the message "A" and has been
    thanked. *)
Definition thanked_store : gmap pykey session_data :=
  store_after_all BEEP ∅
    [ev_start "s1" "+491701234567"; ev_speak "s1" "A"; ev_timeout "s1"].

(** A user_speak event whose text is null. *)
Definition ev_null_text : json :=
  JDict [(py "type", JStr (py "user_speak"));
         (py "session", JDict [(py "id", JStr (py "s1"))]);
         (py "text", JNull)].

(** ** Further readings of events, stores and start-up *)

(** Lines 25-29: what opening and reading beep.b64 gives: the file is
    not there (FileNotFoundError), it cannot be opened or decoded (any
    other exception), or it is read as a text. *)
Inductive beep_file : Type :=
| NoFile
| Unreadable (e : exn)
| FileText (s : pystr).

(** The tone is the stripped text, or [None] when the file does not
    exist; any other failure is not caught and stops the module. *)
Definition load_beep (file : beep_file) : result (option pystr) :=
  match file with
  | NoFile => Ok None
  | Unreadable e => Raise e
  | FileText s => Ok (Some (strip s))
  end.

(** The key under which an event's session id addresses the store, when
    the event has a header and the id is hashable. *)
Definition event_key (event : json) : option pykey :=
  match event_header event with
  | Ok (_, _, sid) =>
      match hash_key sid with
      | Ok k => Some k
      | Raise _ => None
      end
  | Raise _ => None
  end.

Definition is_hashable (v : json) : bool :=
  match v with JList _ | JDict _ => false | _ => true end.


(** A property of every stored record. *)
Definition all_records (P : session_data → Prop)
    (sessions : gmap pykey session_data) : Prop :=
  ∀ k d, sessions !! k = Some d → P d.

(** A thanked record has at least one message. *)
Definition thanked_has_messages (d : session_data) : Prop :=
  is_thanked d = true → messages d ≠ [].

(** Every message of the record is non-empty and has no whitespace at
    either end. *)
Definition messages_trimmed (d : session_data) : Prop :=
  Forall (fun m => m ≠ [] ∧ strip m = m) (messages d).

(** Every key of the store is a string. *)
Definition string_keys (sessions : gmap pykey session_data) : Prop :=
  ∀ k, is_Some (sessions !! k) → ∃ s, k = KStr s.

(** [a] has the member "session_id" with value [sid] and is a speak or
    an audio action. *)
Definition action_for (sid : json) (a : json) : Prop :=
  ∃ fields, a = JDict fields
    ∧ dict_get (py "session_id") fields = Some sid
    ∧ (dict_get (py "type") fields = Some (JStr (py "speak"))
       ∨ dict_get (py "type") fields = Some (JStr (py "audio"))).

Definition is_audio (a : json) : bool :=
  match a with
  | JDict fields =>
      match dict_get (py "type") fields with
      | Some t => str_eq t (py "audio")
      | None => false
      end
  | _ => false
  end.

(** A line of the summary has no line break in it. *)
Definition one_line (m : pystr) : Prop := 10%N ∉ m.

(** A second call, and a store that holds both. *)
Definition two_calls : gmap pykey session_data :=
  store_after_all BEEP ∅
    [ev_start "s1" "+491701234567"; ev_start "s2" "+4930123456";
     ev_speak "s1" "A"; ev_speak "s2" "X"].

Definition s2 : pykey := KStr (py "s2").

(** * Properties *)

(** ** Strings *)

Lemma pystr_eqb_eq (a b : pystr) : pystr_eqb a b = true ↔ a = b.
Proof.
  revert b. induction a as [|x a IH]; intros [|y b]; simpl; try easy.
  rewrite andb_true_iff, N.eqb_eq, IH. split.
  - intros [-> ->]. reflexivity.
  - intros [= -> ->]. split; reflexivity.
Qed.

Lemma pystr_eqb_refl (a : pystr) : pystr_eqb a a = true.
Proof. apply pystr_eqb_eq. reflexivity. Qed.

Lemma str_eq_true (v : json) (s : pystr) : str_eq v s = true → v = JStr s.
Proof.
  destruct v; simpl; try discriminate.
  intros H. apply pystr_eqb_eq in H. congruence.
Qed.

Lemma lstrip_blank (t : pystr) : blank t = true → lstrip t = [].
Proof.
  induction t as [|c t IH]; simpl; [reflexivity|].
  intros H. apply andb_true_iff in H as [Hc Ht]. rewrite Hc. auto.
Qed.

Lemma strip_blank (t : pystr) : blank t = true → strip t = [].
Proof. intros H. unfold strip. rewrite lstrip_blank by exact H. reflexivity. Qed.

(** ** The dispatcher, branch by branch *)

Lemma event_header_inv (event ty session sid : json) :
  event_header event = Ok (ty, session, sid) →
  ∃ d sd, event = JDict d
    ∧ ty = default (JStr []) (dict_get (py "type") d)
    ∧ session = JDict sd
    ∧ default (JDict []) (dict_get (py "session") d) = JDict sd
    ∧ sid = default (JStr []) (dict_get (py "id") sd).
Proof.
  unfold event_header. destruct event as [| | | | |d]; try discriminate.
  cbn [py_get mbind result_bind].
  destruct (default (JDict []) (dict_get (py "session") d))
    as [| | | | |sd] eqn:Hs; try discriminate.
  cbn [py_get mbind result_bind]. intros [= <- <- <-].
  exists d, sd. repeat split; first [exact Hs | reflexivity].
Qed.

Lemma handle_event_header (beep : option pystr)
    (st : gmap pykey session_data) (event : json) (e : exn) :
  event_header event = Raise e → handle_event beep st event = Raise e.
Proof.
  unfold event_header, handle_event.
  destruct event as [| | | | |d]; try (intros [= <-]; reflexivity).
  cbn [py_get mbind result_bind].
  destruct (default (JDict []) (dict_get (py "session") d));
    try (intros [= <-]; reflexivity); discriminate.
Qed.

Ltac open_header H :=
  let d := fresh "d" in
  let sd := fresh "sd" in
  let Hs := fresh "Hs" in
  apply event_header_inv in H as (d & sd & -> & -> & -> & Hs & ->);
  unfold handle_event; cbn [py_get mbind result_bind];
  rewrite Hs; cbn [py_get mbind result_bind].

Ltac pick_branch H :=
  apply str_eq_true in H; rewrite H;
  match goal with
  | |- context [str_eq (JStr (py ?a)) (py ?b)] => idtac
  end;
  repeat match goal with
  | |- context [str_eq (JStr (py ?a)) (py ?b)] =>
      let r := eval vm_compute in (str_eq (JStr (py a)) (py b)) in
      change (str_eq (JStr (py a)) (py b)) with r
  end; cbn iota.

Section Branches.

Variables (beep : option pystr) (st : gmap pykey session_data).
Variables (event ty session sid : json).
Hypothesis Hhdr : event_header event = Ok (ty, session, sid).

Lemma handle_session_start :
  str_eq ty (py "session_start") = true →
  handle_event beep st event = on_session_start st session sid.
Proof. intros H. open_header Hhdr. pick_branch H. reflexivity. Qed.

Lemma handle_user_speak :
  str_eq ty (py "user_speak") = true →
  handle_event beep st event = on_user_speak st event sid.
Proof. intros H. open_header Hhdr. pick_branch H. reflexivity. Qed.

Lemma handle_user_input_timeout :
  str_eq ty (py "user_input_timeout") = true →
  handle_event beep st event = on_user_input_timeout st sid.
Proof. intros H. open_header Hhdr. pick_branch H. reflexivity. Qed.

Lemma handle_session_end :
  str_eq ty (py "session_end") = true →
  handle_event beep st event = on_session_end st sid.
Proof. intros H. open_header Hhdr. pick_branch H. reflexivity. Qed.

Lemma handle_assistant_speech_ended :
  str_eq ty (py "assistant_speech_ended") = true →
  handle_event beep st event = on_assistant_speech_ended beep st sid.
Proof. intros H. open_header Hhdr. pick_branch H. reflexivity. Qed.

Lemma handle_ignored :
  str_eq ty (py "session_start") = false →
  str_eq ty (py "user_speak") = false →
  str_eq ty (py "user_input_timeout") = false →
  str_eq ty (py "session_end") = false →
  str_eq ty (py "assistant_speech_ended") = false →
  handle_event beep st event = Ok (mk_outcome st None []).
Proof.
  intros H1 H2 H3 H4 H5. open_header Hhdr.
  rewrite H1, H2, H3, H4, H5.
  destruct (str_eq _ (py "assistant_speak")); reflexivity.
Qed.

End Branches.

Lemma event_is_inv (ty sid : pystr) (event : json) :
  event_is ty sid event = true →
  ∃ t session, event_header event = Ok (t, session, JStr sid)
    ∧ str_eq t ty = true.
Proof.
  unfold event_is.
  destruct (event_header event) as [[[t session] [| | |s| |]]|];
    try discriminate.
  intros H. apply andb_true_iff in H as [Ht Hs].
  apply pystr_eqb_eq in Hs as ->. eauto.
Qed.

Lemma ensure_session_known (k : pykey) (st : gmap pykey session_data)
    (d : session_data) :
  st !! k = Some d → ensure_session k st = st.
Proof. intros H. unfold ensure_session. rewrite H. reflexivity. Qed.

Lemma ensure_session_lookup (k : pykey) (st : gmap pykey session_data) :
  ensure_session k st !! k = Some (default lazy_session (st !! k)).
Proof.
  unfold ensure_session. destruct (st !! k) eqn:H; simpl.
  - exact H.
  - apply lookup_insert_eq.
Qed.

Lemma ensure_session_other (k k' : pykey) (st : gmap pykey session_data) :
  k ≠ k' → ensure_session k st !! k' = st !! k'.
Proof.
  intros H. unfold ensure_session. destruct (st !! k); [reflexivity|].
  apply lookup_insert_ne. exact H.
Qed.

(** ** The three branches that can raise after the header *)

Lemma on_session_start_ok (st : gmap pykey session_data)
    (session sid c dir : json) (k : pykey) :
  py_get session (py "from_phone_number") (JStr unbekannt) = Ok c →
  py_get session (py "direction") (JStr (py "inbound")) = Ok dir →
  printable c = true → printable dir = true →
  hash_key sid = Ok k →
  on_session_start st session sid
  = Ok (mk_outcome (<[k := mk_session c [] (Some false) None]> st)
          (Some (speak sid GREETING (Some 30))) []).
Proof.
  intros Hc Hd Hpc Hpd Hk. unfold on_session_start, py_print.
  rewrite Hc. cbn [mbind result_bind]. rewrite Hd.
  cbn [mbind result_bind forallb]. rewrite Hpc, Hpd.
  cbn [andb mbind result_bind]. rewrite Hk. reflexivity.
Qed.

Lemma on_session_start_inv (st : gmap pykey session_data)
    (session sid : json) (out : outcome) :
  on_session_start st session sid = Ok out →
  ∃ c dir k,
    py_get session (py "from_phone_number") (JStr unbekannt) = Ok c
    ∧ py_get session (py "direction") (JStr (py "inbound")) = Ok dir
    ∧ printable c = true ∧ printable dir = true
    ∧ hash_key sid = Ok k
    ∧ out = mk_outcome (<[k := mk_session c [] (Some false) None]> st)
              (Some (speak sid GREETING (Some 30))) [].
Proof.
  unfold on_session_start, py_print.
  destruct (py_get session (py "from_phone_number") _) as [c|];
    cbn [mbind result_bind]; [|discriminate].
  destruct (py_get session (py "direction") _) as [dir|];
    cbn [mbind result_bind forallb]; [|discriminate].
  destruct (printable c) eqn:Hpc; cbn [andb mbind result_bind];
    [|discriminate].
  destruct (printable dir) eqn:Hpd; cbn [andb mbind result_bind];
    [|discriminate].
  destruct (hash_key sid) as [k|]; cbn [mbind result_bind]; [|discriminate].
  intros [= <-]. exists c, dir, k. auto 10.
Qed.

Lemma on_user_speak_ok (st : gmap pykey session_data)
    (event sid : json) (s : pystr) (k : pykey) :
  py_get event (py "text") (JStr []) = Ok (JStr s) →
  encodable (strip s) = true →
  hash_key sid = Ok k →
  on_user_speak st event sid
  = Ok (mk_outcome
          (if nonempty (strip s)
           then alter (append_message (strip s)) k (ensure_session k st)
           else ensure_session k st)
          None []).
Proof.
  intros Ht He Hk. unfold on_user_speak, py_print. rewrite Ht.
  cbn [py_strip mbind result_bind forallb printable]. rewrite He.
  cbn [andb mbind result_bind]. rewrite Hk. reflexivity.
Qed.

Lemma on_user_speak_inv (st : gmap pykey session_data)
    (event sid : json) (out : outcome) :
  on_user_speak st event sid = Ok out →
  ∃ s k,
    py_get event (py "text") (JStr []) = Ok (JStr s)
    ∧ encodable (strip s) = true
    ∧ hash_key sid = Ok k
    ∧ out = mk_outcome
              (if nonempty (strip s)
               then alter (append_message (strip s)) k (ensure_session k st)
               else ensure_session k st)
              None [].
Proof.
  unfold on_user_speak, py_print.
  destruct (py_get event (py "text") (JStr [])) as [[| | |s| |]|];
    cbn [py_strip mbind result_bind forallb printable]; try discriminate.
  destruct (encodable (strip s)) eqn:He; cbn [andb mbind result_bind];
    [|discriminate].
  destruct (hash_key sid) as [k|]; cbn [mbind result_bind]; [|discriminate].
  intros [= <-]. exists s, k. auto.
Qed.

Lemma size_zero_empty (st : gmap pykey session_data) :
  (size st =? 0)%nat = true → st = ∅.
Proof. intros H. apply Nat.eqb_eq in H. apply map_size_empty_inv, H. Qed.

Lemma on_session_end_ok (st : gmap pykey session_data) (sid : json)
    (k : pykey) :
  hash_key sid = Ok k →
  on_session_end st sid
  = Ok (mk_outcome (delete k st) None
          (if from_option is_thanked false (st !! k) then []
           else [mk_notification
                   (from_option caller (JStr unbekannt) (st !! k))
                   (from_option messages [] (st !! k))])).
Proof.
  intros Hk. unfold on_session_end.
  destruct (size st =? 0)%nat eqn:Hsz.
  - apply size_zero_empty in Hsz. subst st.
    rewrite delete_empty, lookup_empty. reflexivity.
  - rewrite Hk. reflexivity.
Qed.

Lemma on_session_end_inv (st : gmap pykey session_data) (sid : json)
    (out : outcome) :
  on_session_end st sid = Ok out →
  (st = ∅ ∧ is_hashable sid = false
   ∧ out = mk_outcome ∅ None [mk_notification (JStr unbekannt) []])
  ∨ ∃ k, hash_key sid = Ok k
      ∧ out = mk_outcome (delete k st) None
                (if from_option is_thanked false (st !! k) then []
                 else [mk_notification
                         (from_option caller (JStr unbekannt) (st !! k))
                         (from_option messages [] (st !! k))]).
Proof.
  destruct (hash_key sid) as [k|e] eqn:Hk.
  - rewrite (on_session_end_ok st sid k Hk). intros [= <-]. right. eauto.
  - unfold on_session_end. destruct (size st =? 0)%nat eqn:Hsz.
    + apply size_zero_empty in Hsz. subst st. intros [= <-]. left.
      destruct sid; try discriminate; auto.
    + rewrite Hk. discriminate.
Qed.

(** ** The silent caller *)

(** C7: a user_input_timeout for a session whose record has no messages
    leaves the store as it is (so every flag keeps its value, thanked
    in particular), sends no notification and answers with the speak
    action that carries the re-prompt and a 15 second input timeout.
    When the id has no record yet, the answer is the same and the only
    change is the new record without messages or flags. *)
Theorem timeout_without_messages (beep : option pystr)
    (st : gmap pykey session_data) (event : json) (sid : pystr) :
  event_is (py "user_input_timeout") sid event = true →
  (∀ d, st !! KStr sid = Some d → messages d = [] →
     handle_event beep st event
     = Ok (mk_outcome st
             (Some (JDict
                      [(py "type", JStr (py "speak"));
                       (py "session_id", JStr sid);
                       (py "text",
                        JStr (py "Hallo? Wenn du eine Nachricht hinterlassen m"
                              ++ [246%N]
                              ++ py "chtest, sprich einfach los."));
                       (py "user_input_timeout_seconds", JInt 15)]))
             []))
  ∧ (st !! KStr sid = None →
     handle_event beep st event
     = Ok (mk_outcome
             (<[KStr sid :=
                  mk_session (JStr (py "unbekannt")) [] None None]> st)
             (Some (JDict
                      [(py "type", JStr (py "speak"));
                       (py "session_id", JStr sid);
                       (py "text",
                        JStr (py "Hallo? Wenn du eine Nachricht hinterlassen m"
                              ++ [246%N]
                              ++ py "chtest, sprich einfach los."));
                       (py "user_input_timeout_seconds", JInt 15)]))
             [])).
Proof.
  intros Hev.
  apply event_is_inv in Hev as (t & session & Hh & Ht).
  rewrite (handle_user_input_timeout beep st _ _ _ _ Hh Ht).
  unfold on_user_input_timeout. cbn [hash_key mbind result_bind].
  split.
  - intros d Hd Hm.
    rewrite (ensure_session_known _ _ _ Hd), Hd. cbn [from_option id].
    rewrite Hm. reflexivity.
  - intros Hd. rewrite ensure_session_lookup, Hd.
    unfold ensure_session. rewrite Hd. reflexivity.
Qed.

(** ** A session_end for an id without a record *)

(** C10: a session_end whose id has no record still sends a
    notification, with the default caller "unbekannt" and no messages,
    which the notifier renders with the no-message marker; the store is
    unchanged and there is no action. *)
Theorem session_end_without_record (beep : option pystr)
    (st : gmap pykey session_data) (event : json) (sid : pystr) :
  event_is (py "session_end") sid event = true →
  st !! KStr sid = None →
  handle_event beep st event
  = Ok (mk_outcome st None [mk_notification (JStr (py "unbekannt")) []])
  ∧ ∀ when, notify_text (py "unbekannt") when []
            = [128222%N] ++ py " Anruf auf dem AB" ++ [10%N]
              ++ py "Von: unbekannt" ++ [10%N]
              ++ py "Zeit: " ++ when ++ [10%N]
              ++ py "Nachricht:" ++ [10%N]
              ++ py "  (keine Nachricht hinterlassen)".
Proof.
  intros Hev Hd. split.
  - apply event_is_inv in Hev as (t & session & Hh & Ht).
    rewrite (handle_session_end beep st _ _ _ _ Hh Ht).
    rewrite (on_session_end_ok st (JStr sid) (KStr sid)) by reflexivity.
    rewrite Hd. cbn [from_option].
    rewrite delete_id by exact Hd. reflexivity.
  - intros when. unfold notify_text, msg_text, NO_MESSAGE.
    cbn [nonempty]. reflexivity.
Qed.

(** ** Events for an id without a record *)

Lemma well_typed_inv (event : json) :
  well_typed event = true →
  ∃ ty session sid text,
    event_header event = Ok (ty, session, JStr sid)
    ∧ py_get event (py "text") (JStr []) = Ok (JStr text).
Proof.
  unfold well_typed.
  destruct (event_header event) as [[[ty session] [| | |sid| |]]|];
    try discriminate.
  destruct (py_get event (py "text") (JStr [])) as [[| | |text| |]|];
    try discriminate.
  intros _. exists ty, session, sid, text. split; reflexivity.
Qed.

Lemma session_from_phone_number (event ty session sid : json) :
  event_header event = Ok (ty, session, sid) →
  ∃ c, py_get session (py "from_phone_number") (JStr unbekannt) = Ok c.
Proof.
  intros H. apply event_header_inv in H as (d & sd & _ & _ & -> & _ & _).
  eexists. reflexivity.
Qed.

Lemma prints_ok_inv (event ty session sid : json) :
  prints_ok event = true →
  event_header event = Ok (ty, session, sid) →
  (str_eq ty (py "session_start") = true →
   ∃ c dir,
     py_get session (py "from_phone_number") (JStr unbekannt) = Ok c
     ∧ py_get session (py "direction") (JStr (py "inbound")) = Ok dir
     ∧ printable c = true ∧ printable dir = true)
  ∧ (str_eq ty (py "user_speak") = true →
     ∀ t, py_get event (py "text") (JStr []) = Ok (JStr t) →
          encodable (strip t) = true).
Proof.
  unfold prints_ok. intros H3 Hh. rewrite Hh in H3. split.
  - intros E1. rewrite E1 in H3.
    destruct (py_get session (py "from_phone_number") _) as [c|];
      [|discriminate].
    destruct (py_get session (py "direction") _) as [dir|]; [|discriminate].
    apply andb_true_iff in H3 as [Hc Hd]. exists c, dir. auto.
  - intros E2 t Ht.
    destruct (str_eq ty (py "session_start")) eqn:E1.
    { apply str_eq_true in E1. subst ty. vm_compute in E2. discriminate. }
    rewrite E2, Ht in H3. exact H3.
Qed.

Lemma loggable_inv (event ty session sid : json) :
  loggable event = true →
  event_header event = Ok (ty, session, sid) →
  printable ty = true
  ∧ ∃ shown, py_slice12 sid = Ok shown ∧ printable shown = true.
Proof.
  unfold loggable. intros H Hh. rewrite Hh in H.
  apply andb_true_iff in H as [H1 H2].
  destruct (py_slice12 sid) as [shown|]; [|discriminate]. eauto.
Qed.

(** C3, as the code has it: from a store without a record for the id,
    a well-typed session_start, user_speak or user_input_timeout whose
    printed strings hold no lone surrogate creates the record, with the
    caller
    "unbekannt" unless a session_start carries a phone number; every
    other event type is handled without creating one and leaves the
    store as it is. *)
Theorem record_creation_by_event_type (beep : option pystr)
    (st : gmap pykey session_data) (event ty session : json)
    (sid : pystr) :
  well_typed event = true →
  prints_ok event = true →
  event_header event = Ok (ty, session, JStr sid) →
  st !! KStr sid = None →
  ∃ out, handle_event beep st event = Ok out
    ∧ (lazily_creates ty = true →
       ∃ d, out_sessions out !! KStr sid = Some d
         ∧ if str_eq ty (py "session_start")
           then py_get session (py "from_phone_number") (JStr (py "unbekannt"))
                = Ok (caller d)
           else caller d = JStr (py "unbekannt"))
    ∧ (lazily_creates ty = false → out_sessions out = st).
Proof.
  intros Hwt Hlog Hh Hd.
  apply well_typed_inv in Hwt as (ty' & session' & sid' & text & Hh' & Htext).
  clear Hh'. unfold lazily_creates.
  destruct (prints_ok_inv _ _ _ _ Hlog Hh) as (Hstart & Hpt).
  destruct (str_eq ty (py "session_start")) eqn:E1.
  { destruct (Hstart eq_refl) as (c & dir & Hc & Hdir & Hpc & Hpd).
    rewrite (handle_session_start beep st _ _ _ _ Hh E1).
    rewrite (on_session_start_ok st session (JStr sid) c dir (KStr sid)
               Hc Hdir Hpc Hpd eq_refl).
    eexists. split; [reflexivity|]. split; [|discriminate].
    intros _. eexists. cbn [out_sessions].
    rewrite lookup_insert_eq. split; [reflexivity|exact Hc]. }
  destruct (str_eq ty (py "user_speak")) eqn:E2.
  { rewrite (handle_user_speak beep st _ _ _ _ Hh E2).
    rewrite (on_user_speak_ok st event (JStr sid) text (KStr sid)
               Htext (Hpt eq_refl text Htext) eq_refl).
    eexists. split; [reflexivity|]. split; [|discriminate].
    intros _. cbn [out_sessions].
    destruct (nonempty (strip text)).
    - rewrite lookup_alter_eq, ensure_session_lookup, Hd.
      eexists. split; reflexivity.
    - rewrite ensure_session_lookup, Hd. eexists. split; reflexivity. }
  destruct (str_eq ty (py "user_input_timeout")) eqn:E3.
  { rewrite (handle_user_input_timeout beep st _ _ _ _ Hh E3).
    unfold on_user_input_timeout. cbn [hash_key mbind result_bind].
    rewrite ensure_session_lookup, Hd.
    cbn [from_option id lazy_session messages nonempty andb negb].
    eexists. split; [reflexivity|]. split; [|discriminate].
    intros _. cbn [out_sessions]. rewrite ensure_session_lookup, Hd.
    eexists. split; reflexivity. }
  cbn [orb].
  destruct (str_eq ty (py "session_end")) eqn:E4.
  { rewrite (handle_session_end beep st _ _ _ _ Hh E4).
    rewrite (on_session_end_ok st (JStr sid) (KStr sid) eq_refl).
    eexists. split; [reflexivity|]. split; [discriminate|].
    intros _. cbn [out_sessions]. apply delete_id. exact Hd. }
  destruct (str_eq ty (py "assistant_speech_ended")) eqn:E5.
  { rewrite (handle_assistant_speech_ended beep st _ _ _ _ Hh E5).
    unfold on_assistant_speech_ended. cbn [hash_key mbind result_bind].
    destruct (_ && _).
    - eexists. split; [reflexivity|]. split; [discriminate|].
      intros _. cbn [out_sessions]. apply map_eq. intros k.
      rewrite lookup_alter. case_decide; [subst; rewrite Hd|]; reflexivity.
    - eexists. split; [reflexivity|]. split; [discriminate|]. reflexivity. }
  rewrite (handle_ignored beep st _ _ _ _ Hh E1 E2 E3 E4 E5).
  eexists. split; [reflexivity|]. split; [discriminate|]. reflexivity.
Qed.

(** ** Utterances *)

Lemma utterance_inv (sid text : pystr) (event : json) :
  utterance sid event = Some text →
  ∃ t session, event_header event = Ok (t, session, JStr sid)
    ∧ str_eq t (py "user_speak") = true
    ∧ py_get event (py "text") (JStr []) = Ok (JStr text).
Proof.
  unfold utterance.
  destruct (event_is (py "user_speak") sid event) eqn:E; [|discriminate].
  apply event_is_inv in E as (t & session & Hh & Ht).
  destruct (py_get event (py "text") (JStr [])) as [[| | |x| |]|];
    try discriminate.
  intros [= ->]. eauto.
Qed.

Lemma kept_cons (t : pystr) (texts : list pystr) :
  kept (t :: texts)
  = (if nonempty (strip t) then [strip t] else []) ++ kept texts.
Proof.
  unfold kept. cbn [map]. rewrite filter_cons.
  destruct (strip t); simpl; try case_decide; first [reflexivity|congruence].
Qed.

Lemma kept_app (a b : list pystr) : kept (a ++ b) = kept a ++ kept b.
Proof. unfold kept. rewrite map_app, filter_app. reflexivity. Qed.

Lemma kept_blank (texts : list pystr) :
  Forall (fun t => blank t = true) texts → kept texts = [].
Proof.
  induction 1 as [|t texts Ht _ IH]; [reflexivity|].
  rewrite kept_cons, strip_blank, IH by exact Ht. reflexivity.
Qed.

(** One utterance: no action, no notification; the trimmed text is
    appended unless it is empty, and the flags are left alone. *)
Lemma utterance_step (beep : option pystr)
    (st : gmap pykey session_data) (event : json) (sid text : pystr) :
  utterance sid event = Some text →
  encodable (strip text) = true →
  ∃ st', handle_event beep st event = Ok (mk_outcome st' None [])
    ∧ messages_of st' (KStr sid) = messages_of st (KStr sid) ++ kept [text]
    ∧ thanked_of st' (KStr sid) = thanked_of st (KStr sid)
    ∧ (is_Some (st !! KStr sid) →
       caller <$> st' !! KStr sid = caller <$> st !! KStr sid).
Proof.
  intros Hu He. apply utterance_inv in Hu as (t & session & Hh & Ht & Htext).
  rewrite (handle_user_speak beep st _ _ _ _ Hh Ht).
  rewrite (on_user_speak_ok st event (JStr sid) text (KStr sid)
             Htext He eq_refl).
  eexists. split; [reflexivity|].
  rewrite kept_cons. unfold kept, messages_of, thanked_of. cbn [map].
  rewrite filter_nil, app_nil_r.
  destruct (nonempty (strip text)).
  - rewrite lookup_alter_eq, ensure_session_lookup.
    destruct (st !! KStr sid) as [d|]; cbn;
      (split; [reflexivity|]); (split; [reflexivity|]); intros Hs;
      [reflexivity | destruct Hs as [? Hs]; discriminate].
  - rewrite ensure_session_lookup, app_nil_r.
    destruct (st !! KStr sid) as [d|]; cbn;
      (split; [reflexivity|]); (split; [reflexivity|]); intros Hs;
      [reflexivity | destruct Hs as [? Hs]; discriminate].
Qed.

Lemma run_utterances (beep : option pystr) (sid : pystr)
    (events : list json) (texts : list pystr) :
  Forall2 (fun ev t => utterance sid ev = Some t) events texts →
  Forall (fun t => encodable (strip t) = true) texts →
  ∀ st : gmap pykey session_data,
  ∃ st', run beep st events
         = Ok (mk_trace st' (replicate (length events) None) [])
    ∧ messages_of st' (KStr sid) = messages_of st (KStr sid) ++ kept texts
    ∧ thanked_of st' (KStr sid) = thanked_of st (KStr sid)
    ∧ (is_Some (st !! KStr sid) →
       caller <$> st' !! KStr sid = caller <$> st !! KStr sid).
Proof.
  induction 1 as [|ev t events texts Hu _ IH]; intros Henc st.
  - exists st. unfold kept. cbn. rewrite app_nil_r. auto.
  - apply Forall_cons in Henc as [He Henc].
    destruct (utterance_step beep st ev sid t Hu He)
      as (st1 & H1 & Hm & Ht & Hc).
    destruct (IH Henc st1) as (st2 & H2 & Hm2 & Ht2 & Hc2).
    exists st2. cbn [run mbind result_bind]. rewrite H1.
    cbn [mbind result_bind out_sessions]. rewrite H2.
    cbn [mbind result_bind tr_sessions tr_actions tr_notified out_action
         out_notified app length replicate].
    split; [reflexivity|].
    rewrite Hm2, Hm, Ht2, Ht, <- app_assoc, <- kept_app. repeat split.
    intros Hs. rewrite Hc2, Hc; [reflexivity|exact Hs|].
    destruct Hs as [d Hd]. specialize (Hc (ex_intro _ d Hd)).
    rewrite Hd in Hc. destruct (st1 !! KStr sid); [eauto|discriminate].
Qed.

(** C8: a sequence of user_speak events whose texts are blank (empty,
    missing or whitespace only), for a session that has no messages,
    leaves its message list empty, and every event gets the no-action
    answer; no notification is sent. *)
Theorem blank_speech_is_ignored (beep : option pystr)
    (st : gmap pykey session_data) (sid : pystr)
    (events : list json) (texts : list pystr) :
  Forall2 (fun ev t => utterance sid ev = Some t) events texts →
  Forall (fun t => blank t = true) texts →
  messages_of st (KStr sid) = [] →
  ∃ tr, run beep st events = Ok tr
    ∧ messages_of (tr_sessions tr) (KStr sid) = []
    ∧ tr_actions tr = replicate (length events) None
    ∧ tr_notified tr = [].
Proof.
  intros Hev Hblank Hm.
  assert (Henc : Forall (fun t => encodable (strip t) = true) texts).
  { eapply Forall_impl; [exact Hblank|]. intros t Ht.
    rewrite (strip_blank t Ht). reflexivity. }
  destruct (run_utterances beep sid events texts Hev Henc st)
    as (st' & Hrun & Hm' & _).
  eexists. split; [exact Hrun|]. cbn.
  rewrite Hm', Hm, kept_blank by exact Hblank. auto.
Qed.

(** ** The two events that can notify *)

Lemma session_end_step (beep : option pystr)
    (st : gmap pykey session_data) (event : json) (sid : pystr) :
  event_is (py "session_end") sid event = true →
  handle_event beep st event
  = Ok (mk_outcome (delete (KStr sid) st) None
          (if thanked_of st (KStr sid) then []
           else [mk_notification
                   (from_option caller (JStr unbekannt) (st !! KStr sid))
                   (messages_of st (KStr sid))])).
Proof.
  intros Hev. apply event_is_inv in Hev as (t & session & Hh & Ht).
  rewrite (handle_session_end beep st _ _ _ _ Hh Ht).
  apply on_session_end_ok. reflexivity.
Qed.

Lemma timeout_thanks (beep : option pystr)
    (st : gmap pykey session_data) (event : json) (sid : pystr) :
  event_is (py "user_input_timeout") sid event = true →
  messages_of st (KStr sid) ≠ [] →
  thanked_of st (KStr sid) = false →
  ∃ d, st !! KStr sid = Some d
    ∧ handle_event beep st event
      = Ok (mk_outcome (alter set_thanked (KStr sid) st)
              (Some (speak (JStr sid) THANKS None))
              [mk_notification (caller d) (messages d)]).
Proof.
  intros Hev Hm Hth. apply event_is_inv in Hev as (t & session & Hh & Ht).
  rewrite (handle_user_input_timeout beep st _ _ _ _ Hh Ht).
  unfold messages_of, thanked_of in *.
  destruct (st !! KStr sid) as [d|] eqn:Hd; [|done].
  exists d. split; [reflexivity|].
  unfold on_user_input_timeout. cbn [hash_key mbind result_bind].
  rewrite (ensure_session_known _ _ _ Hd), Hd. cbn [from_option id] in *.
  rewrite Hth. destruct (messages d); [done|reflexivity].
Qed.

Lemma timeout_quiet (beep : option pystr)
    (st : gmap pykey session_data) (event : json) (sid : pystr) :
  event_is (py "user_input_timeout") sid event = true →
  messages_of st (KStr sid) = [] ∨ thanked_of st (KStr sid) = true →
  ∃ a, handle_event beep st event
       = Ok (mk_outcome (ensure_session (KStr sid) st) a []).
Proof.
  intros Hev Hq. apply event_is_inv in Hev as (t & session & Hh & Ht).
  rewrite (handle_user_input_timeout beep st _ _ _ _ Hh Ht).
  unfold on_user_input_timeout. cbn [hash_key mbind result_bind].
  rewrite ensure_session_lookup. unfold messages_of, thanked_of in Hq.
  destruct (st !! KStr sid) as [d|]; cbn [from_option id] in *.
  - destruct Hq as [-> | ->].
    + eexists. reflexivity.
    + rewrite andb_false_r. destruct (negb _); eexists; reflexivity.
  - eexists. reflexivity.
Qed.

(** ** Order of the messages *)

(** C6, as the code has it: after a sequence of user_speak events
    whose trimmed texts can be printed (no lone surrogate) the
    session's message list is what it was before, followed by the
    whitespace-trimmed texts in arrival order, without those that are
    empty once trimmed; nothing is deduplicated or reordered.  The
    notification sent by the event that closes the message (a
    session_end, or a user_input_timeout when the list is not empty)
    carries exactly that list. *)
Theorem messages_are_trimmed_texts_in_order (beep : option pystr)
    (st : gmap pykey session_data) (sid : pystr)
    (events : list json) (texts : list pystr) (closing : json) :
  Forall2 (fun ev t => utterance sid ev = Some t) events texts →
  Forall (fun t => encodable (strip t) = true) texts →
  thanked_of st (KStr sid) = false →
  event_is (py "session_end") sid closing = true
  ∨ (event_is (py "user_input_timeout") sid closing = true
     ∧ messages_of st (KStr sid) ++ kept texts ≠ []) →
  ∃ tr out,
    run beep st events = Ok tr
    ∧ messages_of (tr_sessions tr) (KStr sid)
      = messages_of st (KStr sid) ++ kept texts
    ∧ handle_event beep (tr_sessions tr) closing = Ok out
    ∧ map n_messages (out_notified out)
      = [messages_of st (KStr sid) ++ kept texts].
Proof.
  intros Hev Henc Hth Hclose.
  destruct (run_utterances beep sid events texts Hev Henc st)
    as (st' & Hrun & Hm & Ht & _).
  rewrite Hth in Ht.
  destruct Hclose as [Hend | [Hto Hne]].
  - eexists _, _. split; [exact Hrun|]. cbn [tr_sessions].
    split; [exact Hm|]. split; [apply session_end_step; exact Hend|].
    cbn [out_notified]. rewrite Ht, Hm. reflexivity.
  - rewrite <- Hm in Hne.
    destruct (timeout_thanks beep st' closing sid Hto Hne Ht)
      as (d & Hd & Hstep).
    eexists _, _. split; [exact Hrun|]. cbn [tr_sessions].
    split; [exact Hm|]. split; [exact Hstep|].
    cbn [out_notified map n_messages]. rewrite <- Hm.
    unfold messages_of. rewrite Hd. reflexivity.
Qed.

(** ** Flags only go up while the record stays *)

Section Flags.

(** A flag of the record that no update of a stored record clears. *)
Variable flag : session_data → bool.
Hypothesis flag_append :
  ∀ t d, flag d = true → flag (append_message t d) = true.
Hypothesis flag_set_thanked : ∀ d, flag d = true → flag (set_thanked d) = true.
Hypothesis flag_set_beeped : ∀ d, flag d = true → flag (set_beeped d) = true.

Lemma raised_alter (f : session_data → session_data) (k' k : pykey)
    (st : gmap pykey session_data) :
  (∀ d, flag d = true → flag (f d) = true) →
  flag_up flag st k → flag_up flag (alter f k' st) k.
Proof.
  unfold flag_up. intros Hf H. rewrite lookup_alter.
  case_decide; [subst|exact H].
  destruct (st !! k); cbn in *; [auto|discriminate].
Qed.

Lemma raised_ensure (k' k : pykey) (st : gmap pykey session_data) :
  flag_up flag st k → flag_up flag (ensure_session k' st) k.
Proof.
  unfold flag_up. intros H. destruct (decide (k' = k)) as [->|Hne].
  - rewrite ensure_session_lookup.
    destruct (st !! k); cbn in *; [exact H|discriminate].
  - rewrite ensure_session_other by exact Hne. exact H.
Qed.

Lemma resets_false (k k' : pykey) (event ty session sid : json) :
  resets k event = false →
  event_header event = Ok (ty, session, sid) →
  hash_key sid = Ok k' →
  str_eq ty (py "session_start") = true
  ∨ str_eq ty (py "session_end") = true →
  k' ≠ k.
Proof.
  unfold resets. intros H Hh Hk Hty Heq. rewrite Hh, Hk in H.
  rewrite bool_decide_eq_true_2, andb_true_r in H by exact Heq.
  apply orb_false_iff in H as [H1 H2]. destruct Hty; congruence.
Qed.

Lemma raised_step (beep : option pystr) (st : gmap pykey session_data)
    (event : json) (k : pykey) :
  resets k event = false →
  flag_up flag st k → flag_up flag (store_after beep st event) k.
Proof.
  intros Hres Hst. unfold store_after.
  destruct (event_header event) as [[[ty session] sid]|e] eqn:Hh;
    [|rewrite (handle_event_header _ _ _ _ Hh); exact Hst].
  destruct (str_eq ty (py "session_start")) eqn:E1.
  { rewrite (handle_session_start beep st _ _ _ _ Hh E1).
    destruct (on_session_start st session sid) as [out|] eqn:Hout;
      [|exact Hst].
    apply on_session_start_inv in Hout
      as (c & dir & k' & _ & _ & _ & _ & Hk & ->).
    cbn [out_sessions]. unfold flag_up.
    rewrite lookup_insert_ne; [exact Hst|].
    eapply resets_false; eauto. }
  destruct (str_eq ty (py "user_speak")) eqn:E2.
  { rewrite (handle_user_speak beep st _ _ _ _ Hh E2).
    destruct (on_user_speak st event sid) as [out|] eqn:Hout;
      [|exact Hst].
    apply on_user_speak_inv in Hout as (text & k' & _ & _ & Hk & ->).
    cbn [out_sessions]. destruct (nonempty (strip text)).
    - apply raised_alter; [apply flag_append|]. apply raised_ensure, Hst.
    - apply raised_ensure, Hst. }
  destruct (str_eq ty (py "user_input_timeout")) eqn:E3.
  { rewrite (handle_user_input_timeout beep st _ _ _ _ Hh E3).
    unfold on_user_input_timeout.
    destruct (hash_key sid) as [k'|]; cbn; [|exact Hst].
    destruct (_ && _); cbn.
    - apply raised_alter; [apply flag_set_thanked|]. apply raised_ensure, Hst.
    - destruct (negb _); cbn; apply raised_ensure, Hst. }
  destruct (str_eq ty (py "session_end")) eqn:E4.
  { rewrite (handle_session_end beep st _ _ _ _ Hh E4).
    destruct (on_session_end st sid) as [out|] eqn:Hout; [|exact Hst].
    apply on_session_end_inv in Hout as [(-> & _ & ->)|(k' & Hk & ->)];
      [exact Hst|].
    cbn [out_sessions]. unfold flag_up.
    rewrite lookup_delete_ne; [exact Hst|].
    eapply resets_false; eauto. }
  destruct (str_eq ty (py "assistant_speech_ended")) eqn:E5.
  { rewrite (handle_assistant_speech_ended beep st _ _ _ _ Hh E5).
    unfold on_assistant_speech_ended.
    destruct (hash_key sid) as [k'|]; cbn; [|exact Hst].
    destruct (_ && _); cbn; [|exact Hst].
    apply raised_alter; [apply flag_set_beeped|exact Hst]. }
  rewrite (handle_ignored beep st _ _ _ _ Hh E1 E2 E3 E4 E5). exact Hst.
Qed.

Lemma raised_run (beep : option pystr) (events : list json) (k : pykey) :
  Forall (fun ev => resets k ev = false) events →
  ∀ st, flag_up flag st k → flag_up flag (store_after_all beep st events) k.
Proof.
  unfold store_after_all.
  induction 1 as [|ev events Hev _ IH]; intros st Hst; [exact Hst|].
  cbn [fold_left]. apply IH, raised_step; assumption.
Qed.

End Flags.

Lemma flag_history_monotone (flag : session_data → bool)
    (beep : option pystr) (events : list json) (k : pykey) :
  (∀ t d, flag d = true → flag (append_message t d) = true) →
  (∀ d, flag d = true → flag (set_thanked d) = true) →
  (∀ d, flag d = true → flag (set_beeped d) = true) →
  Forall (fun ev => resets k ev = false) events →
  ∀ st, ∃ a b,
    flag_history flag beep st events k
    = replicate a false ++ replicate b true.
Proof.
  intros H1 H2 H3. unfold flag_history.
  induction 1 as [|ev events Hev Hall IH]; intros st.
  - cbn. destruct (from_option flag false (st !! k)).
    + exists 0%nat, 1%nat. reflexivity.
    + exists 1%nat, 0%nat. reflexivity.
  - cbn [stores_along map].
    destruct (IH (store_after beep st ev)) as (a & b & Hab).
    destruct (from_option flag false (st !! k)) eqn:Hst.
    + pose proof (raised_step flag H1 H2 H3 beep st ev k Hev Hst) as Hnext.
      exists 0%nat, (S b). cbn. f_equal. rewrite Hab.
      destruct a as [|a]; [reflexivity|].
      exfalso. cbn [stores_along] in Hab.
      destruct events; cbn in Hab; congruence.
    + exists (S a), b. cbn. f_equal. exact Hab.
Qed.

Lemma is_thanked_append (t : pystr) (d : session_data) :
  is_thanked d = true → is_thanked (append_message t d) = true.
Proof. intros H. exact H. Qed.

Lemma is_thanked_set_beeped (d : session_data) :
  is_thanked d = true → is_thanked (set_beeped d) = true.
Proof. intros H. exact H. Qed.

Lemma is_beeped_append (t : pystr) (d : session_data) :
  is_beeped d = true → is_beeped (append_message t d) = true.
Proof. intros H. exact H. Qed.

Lemma is_beeped_set_thanked (d : session_data) :
  is_beeped d = true → is_beeped (set_thanked d) = true.
Proof. intros H. exact H. Qed.

(** ** The thanked flag *)

(** C2, as the code has it: along any sequence of events none of which
    is a session_start or session_end for the session's id (those
    replace or remove the record), the thanked flag never goes from
    true back to false, so it rises at most once: its values are a run
    of false followed by a run of true. *)
Theorem thanked_rises_at_most_once (beep : option pystr)
    (st : gmap pykey session_data) (events : list json) (k : pykey) :
  Forall (fun ev => resets k ev = false) events →
  (thanked_of st k = true →
   thanked_of (store_after_all beep st events) k = true)
  ∧ ∃ a b, flag_history is_thanked beep st events k
           = replicate a false ++ replicate b true.
Proof.
  intros Hev. split.
  - intros Hst.
    apply (raised_run is_thanked is_thanked_append (fun _ _ => eq_refl)
             is_thanked_set_beeped beep events k Hev st Hst).
  - apply flag_history_monotone;
      auto using is_thanked_append, is_thanked_set_beeped.
Qed.

(** ** The beep *)

Lemma speech_ended_step (beep : option pystr)
    (st : gmap pykey session_data) (event : json) (sid : pystr) :
  event_is (py "assistant_speech_ended") sid event = true →
  handle_event beep st event
  = if negb (beeped_of st (KStr sid)) && beep_loaded beep
    then Ok (mk_outcome (alter set_beeped (KStr sid) st)
               (Some (audio (JStr sid) (default [] beep))) [])
    else Ok (mk_outcome st None []).
Proof.
  intros Hev. apply event_is_inv in Hev as (t & session & Hh & Ht).
  rewrite (handle_assistant_speech_ended beep st _ _ _ _ Hh Ht).
  reflexivity.
Qed.

(** C4, as the code has it: for a session that has a record whose
    beeped flag is not set, and with the tone loaded, two consecutive
    assistant_speech_ended events yield the audio action (type
    "audio", the session id, the tone) and then no action, and set the
    flag; and along any sequence of events without
    a session_start or session_end for the id, which replace or remove
    the record, the flag rises at most once and never falls. *)
Theorem beep_once_per_record (beep : option pystr) (blob : pystr)
    (st : gmap pykey session_data) (sid : pystr) (d : session_data)
    (e1 e2 : json) :
  beep = Some blob →
  nonempty blob = true →
  st !! KStr sid = Some d →
  is_beeped d = false →
  event_is (py "assistant_speech_ended") sid e1 = true →
  event_is (py "assistant_speech_ended") sid e2 = true →
  run beep st [e1; e2]
  = Ok (mk_trace
          (<[KStr sid :=
               mk_session (caller d) (messages d) (Some true) (thanked d)]>
             st)
          [Some (JDict [(py "type", JStr (py "audio"));
                        (py "session_id", JStr sid);
                        (py "audio", JStr blob)]);
           None]
          [])
  ∧ ∀ events,
      Forall (fun ev => resets (KStr sid) ev = false) events →
      ∃ a b, flag_history is_beeped beep st events (KStr sid)
             = replicate a false ++ replicate b true.
Proof.
  intros -> Hblob Hd Hb H1 H2. split.
  - cbn [run mbind result_bind].
    rewrite (speech_ended_step _ _ _ _ H1).
    unfold beeped_of, beep_loaded. rewrite Hd. cbn [from_option].
    rewrite Hb, Hblob. cbn [negb andb mbind result_bind out_sessions].
    rewrite (speech_ended_step _ _ _ _ H2).
    unfold beeped_of. rewrite lookup_alter_eq, Hd.
    cbn [fmap option_fmap option_map from_option set_beeped is_beeped beeped
         id negb andb mbind result_bind].
    cbn. do 2 f_equal. apply map_eq. intros k.
    rewrite lookup_alter, lookup_insert.
    case_decide; [subst; rewrite Hd|]; reflexivity.
  - intros events Hev. apply flag_history_monotone;
      auto using is_beeped_append, is_beeped_set_thanked.
Qed.

(** ** One notification per call *)

Lemma run_app_ok (beep : option pystr) (a b : list json) :
  ∀ (st : gmap pykey session_data) (tr1 tr2 : trace),
  run beep st a = Ok tr1 →
  run beep (tr_sessions tr1) b = Ok tr2 →
  run beep st (a ++ b)
  = Ok (mk_trace (tr_sessions tr2)
          (tr_actions tr1 ++ tr_actions tr2)
          (tr_notified tr1 ++ tr_notified tr2)).
Proof.
  induction a as [|e a IH]; intros st tr1 tr2 H1 H2.
  - cbn in H1. injection H1 as <-. cbn in *. rewrite H2.
    destruct tr2; reflexivity.
  - cbn [run app mbind result_bind] in *.
    destruct (handle_event beep st e) as [out|]; [|discriminate].
    cbn [mbind result_bind] in *.
    destruct (run beep (out_sessions out) a) as [tr|] eqn:Ha;
      [|discriminate].
    cbn [mbind result_bind] in H1. injection H1 as <-.
    cbn [tr_sessions] in H2. rewrite (IH _ _ _ Ha H2).
    cbn. rewrite app_assoc. reflexivity.
Qed.

Lemma session_start_step (beep : option pystr)
    (st : gmap pykey session_data) (event : json) (sid : pystr) :
  event_is (py "session_start") sid event = true →
  prints_ok event = true →
  ∃ out, handle_event beep st event = Ok out
    ∧ out_notified out = []
    ∧ thanked_of (out_sessions out) (KStr sid) = false.
Proof.
  intros Hev Hlog. apply event_is_inv in Hev as (t & session & Hh & Ht).
  rewrite (handle_session_start beep st _ _ _ _ Hh Ht).
  destruct (proj1 (prints_ok_inv _ _ _ _ Hlog Hh) Ht)
    as (c & dir & Hc & Hdir & Hpc & Hpd).
  rewrite (on_session_start_ok st session (JStr sid) c dir (KStr sid)
             Hc Hdir Hpc Hpd eq_refl).
  eexists. split; [reflexivity|]. split; [reflexivity|].
  unfold thanked_of. cbn [out_sessions]. rewrite lookup_insert_eq.
  reflexivity.
Qed.

Lemma thanked_of_ensure (k : pykey) (st : gmap pykey session_data) :
  thanked_of (ensure_session k st) k = thanked_of st k.
Proof.
  unfold thanked_of. rewrite ensure_session_lookup.
  destruct (st !! k); reflexivity.
Qed.

Lemma thanked_of_alter (f : session_data → session_data) (k : pykey)
    (st : gmap pykey session_data) :
  (∀ d, is_thanked (f d) = is_thanked d) →
  thanked_of (alter f k st) k = thanked_of st k.
Proof.
  intros Hf. unfold thanked_of. rewrite lookup_alter_eq.
  destruct (st !! k); cbn; [apply Hf|reflexivity].
Qed.

Lemma in_call_inv (sid : pystr) (event : json) :
  in_call sid event = true →
  ∃ ty session text,
    event_header event = Ok (ty, session, JStr sid)
    ∧ py_get event (py "text") (JStr []) = Ok (JStr text)
    ∧ str_eq ty (py "session_start") = false
    ∧ str_eq ty (py "session_end") = false
    ∧ (str_eq ty (py "user_speak") = true → encodable (strip text) = true).
Proof.
  unfold in_call. intros H. apply andb_true_iff in H as [Hwt H].
  apply andb_true_iff in Hwt as [Hwt Hlog].
  apply well_typed_inv in Hwt as (ty & session & s & text & Hh & Htext).
  rewrite Hh in H.
  apply andb_true_iff in H as [H H2]. apply andb_true_iff in H as [H0 H1].
  apply pystr_eqb_eq in H0 as ->.
  apply negb_true_iff in H1. apply negb_true_iff in H2.
  destruct (prints_ok_inv _ _ _ _ Hlog Hh) as (_ & Hpt).
  exists ty, session, text. auto 10.
Qed.

(** An event of the call other than its start and end: either nothing
    is sent and the thanked flag keeps its value, or the flag was down,
    one notification is sent and the flag is up. *)
Lemma in_call_step (beep : option pystr)
    (st : gmap pykey session_data) (event : json) (sid : pystr) :
  in_call sid event = true →
  ∃ out, handle_event beep st event = Ok out
    ∧ ((out_notified out = []
        ∧ thanked_of (out_sessions out) (KStr sid)
          = thanked_of st (KStr sid))
       ∨ (thanked_of st (KStr sid) = false
          ∧ length (out_notified out) = 1%nat
          ∧ thanked_of (out_sessions out) (KStr sid) = true)).
Proof.
  intros Hin.
  apply in_call_inv in Hin
    as (ty & session & text & Hh & Htext & E1 & E4 & Henc).
  destruct (str_eq ty (py "user_speak")) eqn:E2.
  { assert (Hu : utterance sid event = Some text).
    { unfold utterance, event_is. rewrite Hh, E2, pystr_eqb_refl, Htext.
      reflexivity. }
    destruct (utterance_step beep st event sid text Hu (Henc eq_refl))
      as (st' & -> & _ & Ht & _).
    eexists. split; [reflexivity|]. left. split; [reflexivity|exact Ht]. }
  destruct (str_eq ty (py "user_input_timeout")) eqn:E3.
  { assert (Hev : event_is (py "user_input_timeout") sid event = true).
    { unfold event_is. rewrite Hh, E3, pystr_eqb_refl. reflexivity. }
    destruct (thanked_of st (KStr sid)) eqn:Hth.
    - destruct (timeout_quiet beep st event sid Hev (or_intror Hth))
        as (a & ->).
      eexists. split; [reflexivity|]. left. split; [reflexivity|].
      cbn [out_sessions]. rewrite thanked_of_ensure. exact Hth.
    - destruct (messages_of st (KStr sid)) as [|m ms] eqn:Hm.
      + destruct (timeout_quiet beep st event sid Hev (or_introl Hm))
          as (a & ->).
        eexists. split; [reflexivity|]. left. split; [reflexivity|].
        cbn [out_sessions]. rewrite thanked_of_ensure. exact Hth.
      + assert (Hne : messages_of st (KStr sid) ≠ []) by (rewrite Hm; done).
        destruct (timeout_thanks beep st event sid Hev Hne Hth)
          as (d & Hd & ->).
        eexists. split; [reflexivity|]. right.
        split; [reflexivity|]. split; [reflexivity|].
        cbn [out_sessions]. unfold thanked_of.
        rewrite lookup_alter_eq, Hd. reflexivity. }
  destruct (str_eq ty (py "assistant_speech_ended")) eqn:E5.
  { assert (Hev : event_is (py "assistant_speech_ended") sid event = true).
    { unfold event_is. rewrite Hh, E5, pystr_eqb_refl. reflexivity. }
    rewrite (speech_ended_step beep st event sid Hev).
    destruct (_ && _); eexists; (split; [reflexivity|]); left;
      (split; [reflexivity|]); [|reflexivity].
    cbn [out_sessions]. apply thanked_of_alter. reflexivity. }
  rewrite (handle_ignored beep st _ _ _ _ Hh E1 E2 E3 E4 E5).
  eexists. split; [reflexivity|]. left. split; reflexivity.
Qed.

Lemma run_starts (beep : option pystr) (sid : pystr) (starts : list json) :
  Forall (fun ev => event_is (py "session_start") sid ev && prints_ok ev
                    = true) starts →
  ∀ st, thanked_of st (KStr sid) = false →
  ∃ tr, run beep st starts = Ok tr
    ∧ tr_notified tr = []
    ∧ thanked_of (tr_sessions tr) (KStr sid) = false.
Proof.
  induction 1 as [|ev starts Hev _ IH]; intros st Hst.
  - eexists. split; [reflexivity|]. split; [reflexivity|exact Hst].
  - apply andb_true_iff in Hev as [Hev Hlog].
    destruct (session_start_step beep st ev sid Hev Hlog)
      as (out & Ho & Hn & Ht).
    destruct (IH _ Ht) as (tr & Hr & Hn' & Ht').
    cbn [run mbind result_bind]. rewrite Ho. cbn [mbind result_bind].
    rewrite Hr. cbn [mbind result_bind].
    eexists. split; [reflexivity|]. cbn. rewrite Hn, Hn'. auto.
Qed.

Lemma run_in_call (beep : option pystr) (sid : pystr) (body : list json) :
  Forall (fun ev => in_call sid ev = true) body →
  ∀ st, ∃ tr, run beep st body = Ok tr
    ∧ ((tr_notified tr = []
        ∧ thanked_of (tr_sessions tr) (KStr sid)
          = thanked_of st (KStr sid))
       ∨ (thanked_of st (KStr sid) = false
          ∧ length (tr_notified tr) = 1%nat
          ∧ thanked_of (tr_sessions tr) (KStr sid) = true)).
Proof.
  induction 1 as [|ev body Hev _ IH]; intros st.
  - eexists. split; [reflexivity|]. left. split; reflexivity.
  - destruct (in_call_step beep st ev sid Hev) as (out & Ho & Hcase).
    destruct (IH (out_sessions out)) as (tr & Hr & Hcase').
    cbn [run mbind result_bind]. rewrite Ho. cbn [mbind result_bind].
    rewrite Hr. cbn [mbind result_bind].
    eexists. split; [reflexivity|].
    cbn [tr_sessions tr_notified].
    destruct Hcase as [[Hn Ht] | (Hf & Hn & Ht)];
      destruct Hcase' as [[Hn' Ht'] | (Hf' & Hn' & Ht')].
    + left. rewrite Hn, Hn', Ht', Ht. auto.
    + right. rewrite Hn, <- Ht, Hf'. auto.
    + right. rewrite Hn', app_nil_r, Ht', Ht. auto.
    + congruence.
Qed.

(** C1, as the code has it: starting from a store in which the
    session is not thanked (in particular one without a record for it),
    a call made of any number of session_start events, then any
    well-typed events of the call other than session_start and
    session_end, in any order and with any duplication (user_speak,
    user_input_timeout, assistant events, unknown types), then one
    session_end, sends exactly one notification and leaves no record;
    the strings the events before the session_end print (the caller
    and direction of a session_start, the stripped text of a
    user_speak) hold no lone surrogate. *)
Theorem one_notification_per_call (beep : option pystr)
    (st : gmap pykey session_data) (sid : pystr)
    (starts body : list json) (closing : json) :
  thanked_of st (KStr sid) = false →
  Forall (fun ev => event_is (py "session_start") sid ev && prints_ok ev
                    = true) starts →
  Forall (fun ev => in_call sid ev = true) body →
  event_is (py "session_end") sid closing = true →
  ∃ tr, run beep st (starts ++ body ++ [closing]) = Ok tr
    ∧ length (tr_notified tr) = 1%nat
    ∧ tr_sessions tr !! KStr sid = None.
Proof.
  intros Hst Hstarts Hbody Hend.
  destruct (run_starts beep sid starts Hstarts st Hst) as (tr1 & H1 & Hn1 & Ht1).
  destruct (run_in_call beep sid body Hbody (tr_sessions tr1))
    as (tr2 & H2 & Hcase).
  pose proof (session_end_step beep (tr_sessions tr2) closing sid Hend) as H3.
  assert (H3' : run beep (tr_sessions tr2) [closing]
                = Ok (mk_trace (delete (KStr sid) (tr_sessions tr2)) [None]
                        (if thanked_of (tr_sessions tr2) (KStr sid) then []
                         else [mk_notification
                                 (from_option caller (JStr unbekannt)
                                    (tr_sessions tr2 !! KStr sid))
                                 (messages_of (tr_sessions tr2) (KStr sid))]))).
  { cbn [run mbind result_bind]. rewrite H3. cbn. rewrite app_nil_r.
    reflexivity. }
  rewrite (run_app_ok _ _ _ _ _ _ H1
             (run_app_ok _ _ _ _ _ _ H2 H3')).
  eexists. split; [reflexivity|].
  cbn [tr_notified tr_sessions]. rewrite Hn1, lookup_delete_eq.
  split; [|reflexivity]. cbn [app]. rewrite length_app.
  destruct Hcase as [[Hn Ht] | (_ & Hn & Ht)].
  - rewrite Hn, Ht, Ht1. reflexivity.
  - rewrite Hn, Ht. reflexivity.
Qed.

(** ** The HTTP boundary *)

(** Every action the dispatcher returns is a non-empty dict, so the
    test [if action:] separates an action from no action. *)
Lemma action_is_truthy (beep : option pystr)
    (st : gmap pykey session_data) (event : json) (out : outcome) :
  handle_event beep st event = Ok out →
  action_truthy (out_action out) = bool_decide (is_Some (out_action out)).
Proof.
  destruct (event_header event) as [[[ty session] sid]|e] eqn:Hh;
    [|rewrite (handle_event_header _ _ _ _ Hh); discriminate].
  destruct (str_eq ty (py "session_start")) eqn:E1.
  { rewrite (handle_session_start beep st _ _ _ _ Hh E1). intros Hout.
    apply on_session_start_inv in Hout
      as (c & dir & k & _ & _ & _ & _ & _ & ->).
    reflexivity. }
  destruct (str_eq ty (py "user_speak")) eqn:E2.
  { rewrite (handle_user_speak beep st _ _ _ _ Hh E2). intros Hout.
    apply on_user_speak_inv in Hout as (text & k & _ & _ & _ & ->).
    reflexivity. }
  destruct (str_eq ty (py "user_input_timeout")) eqn:E3.
  { rewrite (handle_user_input_timeout beep st _ _ _ _ Hh E3).
    unfold on_user_input_timeout.
    destruct (hash_key sid); cbn; [|discriminate].
    destruct (_ && _); [intros [= <-]; reflexivity|].
    destruct (negb _); intros [= <-]; reflexivity. }
  destruct (str_eq ty (py "session_end")) eqn:E4.
  { rewrite (handle_session_end beep st _ _ _ _ Hh E4). intros Hout.
    apply on_session_end_inv in Hout as [(_ & _ & ->)|(k & _ & ->)];
      reflexivity. }
  destruct (str_eq ty (py "assistant_speech_ended")) eqn:E5.
  { rewrite (handle_assistant_speech_ended beep st _ _ _ _ Hh E5).
    unfold on_assistant_speech_ended.
    destruct (hash_key sid); cbn; [|discriminate].
    destruct (_ && _); intros [= <-]; reflexivity. }
  rewrite (handle_ignored beep st _ _ _ _ Hh E1 E2 E3 E4 E5).
  intros [= <-]. reflexivity.
Qed.

Lemma authorized_false (SECRET : pystr) (req : request) :
  nonempty SECRET = true →
  default [] (x_api_token req) ≠ SECRET →
  authorized SECRET req = false.
Proof.
  intros Hs Hne. unfold authorized. rewrite Hs.
  destruct (pystr_eqb _ SECRET) eqn:E; [|reflexivity].
  apply pystr_eqb_eq in E. contradiction.
Qed.

Lemma do_POST_decoded (SECRET : pystr) (beep : option pystr)
    (json_loads : list N → result json) (maxsize memory : N)
    (st : gmap pykey session_data) (req : request) (n : Z)
    (body : list N) (event : json) (out : outcome) :
  from_option py_int (Some 0) (content_length req) = Some n →
  rfile_read maxsize memory n (rfile req) = Ok body →
  authorized SECRET req = true →
  json_loads body = Ok event →
  log_line event = Ok tt →
  handle_event beep st event = Ok out →
  do_POST SECRET beep json_loads maxsize memory st req
  = mk_post (out_sessions out)
      match out_action out with
      | None => Responded 204 None None
      | Some a => Responded 200 (Some (py "application/json")) (Some a)
      end
      (out_notified out) true.
Proof.
  intros Hlen Hread Ha Hbody Hlog Hout. unfold do_POST.
  rewrite Hlen, Hread, Ha, Hbody, Hlog, Hout. cbn [negb].
  rewrite (action_is_truthy _ _ _ _ Hout).
  destruct (out_action out); reflexivity.
Qed.

(** C9, as the code has it: for a POST request whose Content-Length
    header is missing or a number int() accepts, and whose body is then
    read without an exception (the length is -1 or a non-negative
    length that fits an index and the memory), (1) with a secret
    configured and an X-API-TOKEN header that is missing or different
    the reply is 401 without a body, the dispatcher is not called and
    the store is untouched; (2) once the token check has passed, a body
    that json.loads rejects with JSONDecodeError gets 400 without a body;
    (3) once the body has been decoded, the log line has been printed
    and the dispatcher has returned, no action gives 204 without a
    body and an action gives 200 with the action as JSON body, two
    different replies. *)
Theorem do_POST_statuses (SECRET : pystr) (beep : option pystr)
    (json_loads : list N → result json) (maxsize memory : N)
    (st : gmap pykey session_data) (req : request) (n : Z)
    (body : list N) :
  from_option py_int (Some 0) (content_length req) = Some n →
  rfile_read maxsize memory n (rfile req) = Ok body →
  (nonempty SECRET = true →
   default [] (x_api_token req) ≠ SECRET →
   do_POST SECRET beep json_loads maxsize memory st req
   = mk_post st (Responded 401 None None) [] false)
  ∧ (authorized SECRET req = true →
     json_loads body = Raise JSONDecodeError →
     do_POST SECRET beep json_loads maxsize memory st req
     = mk_post st (Responded 400 None None) [] false)
  ∧ (authorized SECRET req = true →
     ∀ event out,
       json_loads body = Ok event →
       log_line event = Ok tt →
       handle_event beep st event = Ok out →
       do_POST SECRET beep json_loads maxsize memory st req
       = mk_post (out_sessions out)
           match out_action out with
           | None => Responded 204 None None
           | Some a => Responded 200 (Some (py "application/json")) (Some a)
           end
           (out_notified out) true).
Proof.
  intros Hlen Hread. repeat split.
  - intros Hs Hne. unfold do_POST.
    rewrite Hlen, Hread, (authorized_false _ _ Hs Hne). reflexivity.
  - intros Ha Hbody. unfold do_POST. rewrite Hlen, Hread, Ha, Hbody.
    reflexivity.
  - intros Ha event out Hbody Hlog Hout.
    exact (do_POST_decoded SECRET beep json_loads maxsize memory st req n
             body event out Hlen Hread Ha Hbody Hlog Hout).
Qed.

(** ** Malformed and partial events *)

Lemma well_typed_handled (beep : option pystr)
    (st : gmap pykey session_data) (event : json) :
  well_typed event = true →
  prints_ok event = true →
  ∃ out, handle_event beep st event = Ok out.
Proof.
  intros Hwt Hlog.
  destruct (well_typed_inv event Hwt) as (ty & session & sid & text & Hh & Htext).
  destruct (str_eq ty (py "session_start")) eqn:E1.
  { destruct (session_start_step beep st event sid) as (out & Ho & _).
    - unfold event_is. rewrite Hh, E1, pystr_eqb_refl. reflexivity.
    - exact Hlog.
    - eauto. }
  destruct (str_eq ty (py "session_end")) eqn:E4.
  { eexists. apply (session_end_step beep st event sid).
    unfold event_is. rewrite Hh, E4, pystr_eqb_refl. reflexivity. }
  destruct (in_call_step beep st event sid) as (out & Ho & _).
  - unfold in_call. rewrite Hwt, Hlog, Hh, E1, E4, pystr_eqb_refl.
    reflexivity.
  - eauto.
Qed.

Lemma well_typed_logged (event : json) :
  well_typed event = true →
  loggable event = true →
  log_line event = Ok tt.
Proof.
  intros Hwt Hlog.
  destruct (well_typed_inv event Hwt) as (ty & session & sid & text & Hh & _).
  destruct (loggable_inv _ _ _ _ Hlog Hh)
    as (Hty & shown & Hshown & Hps).
  apply event_header_inv in Hh as (d & sd & -> & Hty' & _ & Hs & Hid).
  unfold log_line, py_print. cbn [py_get mbind result_bind].
  rewrite Hs. cbn [py_get mbind result_bind]. rewrite <- Hid, <- Hty'.
  rewrite Hshown. cbn [mbind result_bind forallb]. rewrite Hty, Hps.
  reflexivity.
Qed.

(** C5, as the code has it: an event that is a JSON object whose
    members, where present, have the types of the wire schema (session
    an object, session id a string, text a string), and whose printed
    strings (the caller and direction of a session_start, the stripped
    text of a user_speak) hold no lone surrogate, is handled without an
    exception whatever members are missing: handle_event returns an
    action or none; and when the log line can be printed as well (no
    lone surrogate in the type or the first twelve characters of the
    session id), a request that carries the event, whose body is read
    without an exception and which passes the token check, is answered
    with 200 or 204. *)
Theorem well_typed_events_never_raise (beep : option pystr)
    (st : gmap pykey session_data) (event : json) :
  well_typed event = true →
  prints_ok event = true →
  (∃ out, handle_event beep st event = Ok out)
  ∧ (loggable event = true →
     ∀ SECRET json_loads maxsize memory req n body,
       from_option py_int (Some 0) (content_length req) = Some n →
       rfile_read maxsize memory n (rfile req) = Ok body →
       authorized SECRET req = true →
       json_loads body = Ok event →
       ∃ status ctype reply_body,
         post_reply (do_POST SECRET beep json_loads maxsize memory st req)
         = Responded status ctype reply_body
         ∧ (status = 200 ∨ status = 204)).
Proof.
  intros Hwt Hpr. split; [apply well_typed_handled; assumption|].
  intros Hlog SECRET json_loads maxsize memory req n body Hlen Hread Ha
    Hbody.
  destruct (well_typed_handled beep st event Hwt Hpr) as [out Hout].
  rewrite (do_POST_decoded SECRET beep json_loads maxsize memory st req n
             body event out Hlen Hread Ha Hbody
             (well_typed_logged event Hwt Hlog) Hout).
  cbn [post_reply]. destruct (out_action out); eauto 6.
Qed.

(** * The properties on concrete calls *)

(** ** The two scenarios of the specification *)

(** Full voicemail: greeting with a 30 second timeout, no action while
    the caller speaks, the thank-you and one notification at the
    timeout, nothing more at the end of the call. *)
Example scenario_full_voicemail :
  run BEEP ∅
    [ev_start "s1" "+491701234567"; ev_speak "s1" "Hallo hier ist Anna";
     ev_timeout "s1"; ev_end "s1"]
  = Ok (mk_trace ∅
          [Some (speak (JStr (py "s1")) GREETING (Some 30)); None;
           Some (speak (JStr (py "s1")) THANKS None); None]
          [mk_notification (JStr (py "+491701234567"))
             [py "Hallo hier ist Anna"]]).
Proof. vm_compute; reflexivity. Qed.

(** Silent caller: the re-prompt with a 15 second timeout, the flag
    stays down and nothing is sent. *)
Example scenario_silent_caller :
  run BEEP ∅ [ev_start "s1" "+491701234567"; ev_timeout "s1"]
  = Ok (mk_trace started
          [Some (speak (JStr (py "s1")) GREETING (Some 30));
           Some (speak (JStr (py "s1")) REPROMPT (Some 15))]
          [])
  ∧ thanked_of started s1 = false.
Proof. split; vm_compute; reflexivity. Qed.

(** ** Calls that send two notifications, or none *)

(** Against C1 as stated: a call whose session_end arrives twice sends
    two notifications (the thank-you after the timeout and the one for
    the second session_end, which finds no record), and a call that is
    never timed out or ended sends none although the caller spoke. *)
Lemma duplicated_session_end_notifies_twice :
  notified_count
    (run BEEP ∅ [ev_start "s1" "+491701234567"; ev_speak "s1" "A";
                 ev_timeout "s1"; ev_end "s1"; ev_end "s1"])
  = Some 2%nat
  ∧ notified_count
      (run BEEP ∅ [ev_start "s1" "+491701234567"; ev_speak "s1" "A"])
    = Some 0%nat.
Proof. split; vm_compute; reflexivity. Qed.

Lemma one_notification_per_call_witness :
  ∃ tr,
    run BEEP ∅
      ([ev_start "s1" "+491701234567"; ev_start "s1" "+491701234567"]
       ++ [ev_speech_ended "s1"; ev_timeout "s1"; ev_speak "s1" "A";
           ev_timeout "s1"; ev_speak "s1" "B"; ev_timeout "s1"]
       ++ [ev_end "s1"])
    = Ok tr
    ∧ length (tr_notified tr) = 1%nat
    ∧ tr_sessions tr !! KStr (py "s1") = None.
Proof.
  apply (one_notification_per_call BEEP ∅ (py "s1")).
  - vm_compute; reflexivity.
  - repeat (constructor; [vm_compute; reflexivity|]). constructor.
  - repeat (constructor; [vm_compute; reflexivity|]). constructor.
  - vm_compute; reflexivity.
Defined.

(** ** A second session_start clears the thanked flag *)

(** Against C2 as stated: after the thank-you the flag is up, and a
    repeated session_start for the same id brings it down again. *)
Lemma session_start_clears_thanked :
  flag_history is_thanked BEEP ∅
    [ev_start "s1" "+491701234567"; ev_speak "s1" "A"; ev_timeout "s1";
     ev_start "s1" "+491701234567"] s1
  = [false; false; false; true; false].
Proof. vm_compute; reflexivity. Qed.

Lemma thanked_rises_at_most_once_witness :
  thanked_of thanked_store s1 = true
  ∧ thanked_of
      (store_after_all BEEP thanked_store
         [ev_speak "s1" "B"; ev_timeout "s1"; ev_end "s2";
          ev_speech_ended "s1"; ev_start "s2" "+4930"])
      s1 = true
  ∧ ∃ a b,
      flag_history is_thanked BEEP started
        [ev_speak "s1" "A"; ev_timeout "s1"; ev_end "s2"; ev_timeout "s1"] s1
      = replicate a false ++ replicate b true.
Proof.
  split; [vm_compute; reflexivity|]. split.
  - apply (thanked_rises_at_most_once BEEP thanked_store).
    + repeat (constructor; [vm_compute; reflexivity|]). constructor.
    + vm_compute; reflexivity.
  - apply (thanked_rises_at_most_once BEEP started).
    repeat (constructor; [vm_compute; reflexivity|]). constructor.
Defined.

(** ** Events that create no record *)

(** Against C3 as stated: a session_end and an
    assistant_speech_ended for an unknown id are handled without
    creating a record. *)
Lemma session_end_creates_no_record :
  handle_event BEEP ∅ (ev_end "s1")
  = Ok (mk_outcome ∅ None [mk_notification (JStr (py "unbekannt")) []])
  ∧ handle_event BEEP ∅ (ev_speech_ended "s1")
    = Ok (mk_outcome ∅
            (Some (JDict [(py "type", JStr (py "audio"));
                          (py "session_id", JStr (py "s1"));
                          (py "audio", JStr (py "UklGRiQAAABXQVZFZm10"))]))
            []).
Proof. split; vm_compute; reflexivity. Qed.

Lemma record_creation_by_event_type_witness :
  (∃ out, handle_event BEEP ∅ (ev_speak "s1" "Hallo") = Ok out
     ∧ ∃ d, out_sessions out !! KStr (py "s1") = Some d
         ∧ caller d = JStr (py "unbekannt"))
  ∧ (∃ out, handle_event BEEP ∅ (ev_end "s1") = Ok out
       ∧ out_sessions out = ∅).
Proof.
  split.
  - destruct (record_creation_by_event_type BEEP ∅ (ev_speak "s1" "Hallo")
                (JStr (py "user_speak")) (JDict [(py "id", JStr (py "s1"))])
                (py "s1"))
      as (out & Hout & Hcreates & _).
    + vm_compute; reflexivity.
    + vm_compute; reflexivity.
    + vm_compute; reflexivity.
    + vm_compute; reflexivity.
    + exists out. split; [exact Hout|].
      exact (Hcreates ltac:(vm_compute; reflexivity)).
  - destruct (record_creation_by_event_type BEEP ∅ (ev_end "s1")
                (JStr (py "session_end")) (JDict [(py "id", JStr (py "s1"))])
                (py "s1"))
      as (out & Hout & _ & Hnone).
    + vm_compute; reflexivity.
    + vm_compute; reflexivity.
    + vm_compute; reflexivity.
    + vm_compute; reflexivity.
    + exists out. split; [exact Hout|].
      exact (Hnone ltac:(vm_compute; reflexivity)).
Defined.

(** ** The beep without a record *)

(** Against C4 as stated: for an id without a record (the
    session_start was lost, or the call has ended) two consecutive
    assistant_speech_ended events both get the audio action; and a
    repeated session_start lowers the flag, which then rises again. *)
Lemma beep_twice_without_record :
  run BEEP ∅ [ev_speech_ended "s1"; ev_speech_ended "s1"]
  = Ok (mk_trace ∅
          [Some (JDict [(py "type", JStr (py "audio"));
                        (py "session_id", JStr (py "s1"));
                        (py "audio", JStr (py "UklGRiQAAABXQVZFZm10"))]);
           Some (JDict [(py "type", JStr (py "audio"));
                        (py "session_id", JStr (py "s1"));
                        (py "audio", JStr (py "UklGRiQAAABXQVZFZm10"))])]
          [])
  ∧ flag_history is_beeped BEEP ∅
      [ev_start "s1" "+491701234567"; ev_speech_ended "s1";
       ev_start "s1" "+491701234567"; ev_speech_ended "s1"] s1
    = [false; false; true; false; true].
Proof. split; vm_compute; reflexivity. Qed.

Lemma beep_once_per_record_witness :
  run BEEP started [ev_speech_ended "s1"; ev_speech_ended "s1"]
  = Ok (mk_trace
          (<[KStr (py "s1") :=
               mk_session (JStr (py "+491701234567")) [] (Some true) None]>
             started)
          [Some (JDict [(py "type", JStr (py "audio"));
                        (py "session_id", JStr (py "s1"));
                        (py "audio", JStr (py "UklGRiQAAABXQVZFZm10"))]);
           None]
          [])
  ∧ ∃ a b,
      flag_history is_beeped BEEP started
        [ev_speech_ended "s1"; ev_speak "s1" "A"; ev_speech_ended "s1";
         ev_timeout "s1"]
        (KStr (py "s1"))
      = replicate a false ++ replicate b true.
Proof.
  destruct (beep_once_per_record BEEP (py "UklGRiQAAABXQVZFZm10") started
              (py "s1")
              (mk_session (JStr (py "+491701234567")) [] (Some false) None)
              (ev_speech_ended "s1") (ev_speech_ended "s1"))
    as [Hrun Hhist].
  - reflexivity.
  - vm_compute; reflexivity.
  - vm_compute; reflexivity.
  - vm_compute; reflexivity.
  - vm_compute; reflexivity.
  - vm_compute; reflexivity.
  - split; [exact Hrun|]. apply Hhist.
    repeat (constructor; [vm_compute; reflexivity|]). constructor.
Defined.

(** ** A member of the wrong type *)

(** Against C5 as stated: a user_speak event whose text is null makes
    handle_event raise. *)
Lemma null_text_raises :
  well_typed ev_null_text = false
  ∧ handle_event BEEP ∅ ev_null_text = Raise AttributeError.
Proof. split; vm_compute; reflexivity. Qed.

Lemma well_typed_events_never_raise_witness :
  (∃ out, handle_event BEEP ∅ (JDict [(py "type", JStr (py "user_speak"))])
          = Ok out)
  ∧ ∃ status ctype reply_body,
      post_reply
        (do_POST sample_secret BEEP
           (fun _ => Ok (JDict [(py "type", JStr (py "user_speak"))]))
           sample_maxsize sample_memory ∅
           (mk_request (Some (py "5")) (Some (py "s3cret")) (py "12345")))
      = Responded status ctype reply_body
      ∧ (status = 200 ∨ status = 204).
Proof.
  destruct (well_typed_events_never_raise BEEP ∅
              (JDict [(py "type", JStr (py "user_speak"))]))
    as [Hout Hpost].
  - vm_compute; reflexivity.
  - vm_compute; reflexivity.
  - split; [exact Hout|].
    apply (Hpost ltac:(vm_compute; reflexivity) sample_secret
             (fun _ => Ok (JDict [(py "type", JStr (py "user_speak"))]))
             sample_maxsize sample_memory
             (mk_request (Some (py "5")) (Some (py "s3cret")) (py "12345"))
             5 (py "12345")).
    + vm_compute; reflexivity.
    + vm_compute; reflexivity.
    + vm_compute; reflexivity.
    + reflexivity.
Defined.

(** ** Texts are stored trimmed *)

(** Against C6 as stated: the text " A" is not empty, and the message
    list holds "A", not the text as it arrived; a text of one space is
    not empty either and is not stored at all. *)
Lemma stored_text_is_trimmed :
  utterance (py "s1") (ev_speak "s1" " A") = Some (py " A")
  ∧ messages_of (store_after_all BEEP ∅ [ev_speak "s1" " A"]) s1 = [py "A"]
  ∧ [py "A"] ≠ [py " A"]
  ∧ utterance (py "s1") (ev_speak "s1" " ") = Some (py " ")
  ∧ messages_of (store_after_all BEEP ∅ [ev_speak "s1" " "]) s1 = [].
Proof. repeat split; try (vm_compute; reflexivity). discriminate. Qed.

Lemma messages_are_trimmed_texts_in_order_witness :
  ∃ tr out,
    run BEEP started [ev_speak "s1" "A"; ev_speak "s1" "B"; ev_speak "s1" "C"]
    = Ok tr
    ∧ messages_of (tr_sessions tr) (KStr (py "s1"))
      = messages_of started (KStr (py "s1")) ++ kept [py "A"; py "B"; py "C"]
    ∧ handle_event BEEP (tr_sessions tr) (ev_timeout "s1") = Ok out
    ∧ map n_messages (out_notified out)
      = [messages_of started (KStr (py "s1")) ++ kept [py "A"; py "B"; py "C"]].
Proof.
  apply (messages_are_trimmed_texts_in_order BEEP started (py "s1")).
  - repeat (constructor; [vm_compute; reflexivity|]). constructor.
  - repeat (constructor; [vm_compute; reflexivity|]). constructor.
  - vm_compute; reflexivity.
  - right. split; [vm_compute; reflexivity|]. vm_compute. discriminate.
Defined.

(** The utterances "A", "B", "C" give the notification ["A"; "B"; "C"]. *)
Example notification_of_A_B_C :
  tr_notified
    <$> (match run BEEP ∅ [ev_start "s1" "+491701234567"; ev_speak "s1" "A";
                           ev_speak "s1" "B"; ev_speak "s1" "C";
                           ev_timeout "s1"; ev_end "s1"]
         with Ok tr => Some tr | Raise _ => None end)
  = Some [mk_notification (JStr (py "+491701234567"))
            [py "A"; py "B"; py "C"]].
Proof. vm_compute; reflexivity. Qed.

(** ** The silent caller, the blank speaker, the unknown session_end *)

Lemma timeout_without_messages_witness :
  handle_event BEEP started (ev_timeout "s1")
  = Ok (mk_outcome started
          (Some (JDict
                   [(py "type", JStr (py "speak"));
                    (py "session_id", JStr (py "s1"));
                    (py "text",
                     JStr (py "Hallo? Wenn du eine Nachricht hinterlassen m"
                           ++ [246%N]
                           ++ py "chtest, sprich einfach los."));
                    (py "user_input_timeout_seconds", JInt 15)]))
          [])
  ∧ handle_event BEEP ∅ (ev_timeout "s1")
    = Ok (mk_outcome
            (<[KStr (py "s1") :=
                 mk_session (JStr (py "unbekannt")) [] None None]> ∅)
            (Some (JDict
                     [(py "type", JStr (py "speak"));
                      (py "session_id", JStr (py "s1"));
                      (py "text",
                       JStr (py "Hallo? Wenn du eine Nachricht hinterlassen m"
                             ++ [246%N]
                             ++ py "chtest, sprich einfach los."));
                      (py "user_input_timeout_seconds", JInt 15)]))
            []).
Proof.
  split.
  - apply (proj1 (timeout_without_messages BEEP started (ev_timeout "s1")
                    (py "s1") ltac:(vm_compute; reflexivity))
             (mk_session (JStr (py "+491701234567")) [] (Some false) None)).
    + vm_compute; reflexivity.
    + reflexivity.
  - apply (proj2 (timeout_without_messages BEEP ∅ (ev_timeout "s1")
                    (py "s1") ltac:(vm_compute; reflexivity))).
    vm_compute; reflexivity.
Defined.

Lemma blank_speech_is_ignored_witness :
  ∃ tr,
    run BEEP started
      [ev_speak "s1" "   "; ev_speak "s1" EmptyString;
       mk_event "user_speak" "s1" []]
    = Ok tr
    ∧ messages_of (tr_sessions tr) (KStr (py "s1")) = []
    ∧ tr_actions tr = replicate 3 None
    ∧ tr_notified tr = [].
Proof.
  apply (blank_speech_is_ignored BEEP started (py "s1")
           [ev_speak "s1" "   "; ev_speak "s1" EmptyString;
       mk_event "user_speak" "s1" []]
           [py "   "; []; []]).
  - repeat (constructor; [vm_compute; reflexivity|]). constructor.
  - repeat (constructor; [vm_compute; reflexivity|]). constructor.
  - vm_compute; reflexivity.
Defined.

Lemma session_end_without_record_witness :
  handle_event BEEP ∅ (ev_end "s1")
  = Ok (mk_outcome ∅ None [mk_notification (JStr (py "unbekannt")) []])
  ∧ ∀ when, notify_text (py "unbekannt") when []
            = [128222%N] ++ py " Anruf auf dem AB" ++ [10%N]
              ++ py "Von: unbekannt" ++ [10%N]
              ++ py "Zeit: " ++ when ++ [10%N]
              ++ py "Nachricht:" ++ [10%N]
              ++ py "  (keine Nachricht hinterlassen)".
Proof.
  apply (session_end_without_record BEEP ∅ (ev_end "s1") (py "s1")).
  - vm_compute; reflexivity.
  - vm_compute; reflexivity.
Defined.

(** ** What the interpreter refuses *)

(** A text with a lone surrogate cannot be printed: the user_speak
    raises at the log line of line 129, before the message is stored. *)
Example surrogate_text_raises :
  handle_event BEEP started
    (mk_event "user_speak" "s1" [(py "text", JStr [55357%N])])
  = Raise UnicodeEncodeError
  ∧ store_after BEEP started
      (mk_event "user_speak" "s1" [(py "text", JStr [55357%N])])
    = started.
Proof. split; vm_compute; reflexivity. Qed.

(** A session_end whose id is a list: on the empty store pop gives the
    default without hashing the key, and the notification is sent; on
    a store that holds a record the key is hashed and the call
    raises. *)
Example session_end_with_a_list_id :
  handle_event BEEP ∅
    (JDict [(py "type", JStr (py "session_end"));
            (py "session", JDict [(py "id", JList [])])])
  = Ok (mk_outcome ∅ None [mk_notification (JStr (py "unbekannt")) []])
  ∧ handle_event BEEP started
      (JDict [(py "type", JStr (py "session_end"));
              (py "session", JDict [(py "id", JList [])])])
    = Raise TypeError.
Proof. split; vm_compute; reflexivity. Qed.

(** What int() makes of a Content-Length value. *)
Example int_of_header_values :
  py_int (py " 42 ") = Some 42
  ∧ py_int (py "-1") = Some (-1)
  ∧ py_int (py "1_000") = Some 1000
  ∧ py_int (160%N :: py "7") = Some 7
  ∧ py_int [31%N; 50%N] = None
  ∧ py_int (py "+ 1") = None
  ∧ py_int (py "abc") = None
  ∧ py_int (replicate 4300 49%N) ≠ None
  ∧ py_int (replicate 4301 49%N) = None.
Proof. repeat split; vm_compute; (reflexivity || discriminate). Qed.

(** What reading the body gives for a length. *)
Example reading_the_body :
  rfile_read sample_maxsize sample_memory 2 (py "{}..") = Ok (py "{}")
  ∧ rfile_read sample_maxsize sample_memory 9 (py "{}") = Ok (py "{}")
  ∧ rfile_read sample_maxsize sample_memory (-1) (py "{}") = Ok (py "{}")
  ∧ rfile_read sample_maxsize sample_memory (-2) (py "{}") = Raise ValueError
  ∧ rfile_read sample_maxsize sample_memory (2 ^ 40) (py "{}")
    = Raise MemoryError
  ∧ rfile_read sample_maxsize sample_memory (2 ^ 63) (py "{}")
    = Raise OverflowError
  ∧ rfile_read sample_maxsize sample_memory (- 2 ^ 63 - 1) (py "{}")
    = Raise OverflowError.
Proof. repeat split; vm_compute; reflexivity. Qed.

(** ** Requests *)

(** Against C9 as stated: with a secret configured, a request with a
    wrong token whose Content-Length is not a number is not answered
    with 401: int() raises before the token is looked at.  And a body
    that is not valid JSON gets 401, not 400, when the token is wrong. *)
Lemma bad_content_length_gets_no_401 :
  do_POST sample_secret BEEP sample_loads sample_maxsize sample_memory ∅
    (mk_request (Some (py "abc")) (Some (py "wrong")) body_empty_object)
  = mk_post ∅ (Crashed ValueError) [] false
  ∧ do_POST sample_secret BEEP sample_loads sample_maxsize sample_memory ∅
      (mk_request (Some (py "1")) (Some (py "wrong")) body_truncated)
    = mk_post ∅ (Responded 401 None None) [] false.
Proof. split; vm_compute; reflexivity. Qed.

Lemma do_POST_statuses_witness :
  do_POST sample_secret BEEP sample_loads sample_maxsize sample_memory ∅
    (mk_request (Some (py "2")) (Some (py "wrong")) body_empty_object)
  = mk_post ∅ (Responded 401 None None) [] false
  ∧ do_POST sample_secret BEEP sample_loads sample_maxsize sample_memory ∅
      (mk_request (Some (py "1")) (Some (py "s3cret")) body_truncated)
    = mk_post ∅ (Responded 400 None None) [] false
  ∧ do_POST sample_secret BEEP sample_loads sample_maxsize sample_memory ∅
      (mk_request (Some (py "2")) (Some (py "s3cret")) body_empty_object)
    = mk_post ∅ (Responded 204 None None) [] true
  ∧ do_POST [] BEEP sample_loads sample_maxsize sample_memory ∅
      (mk_request (Some (py "24")) None body_session_start)
    = mk_post
        (<[KStr [] := mk_session (JStr (py "unbekannt")) [] (Some false) None]> ∅)
        (Responded 200 (Some (py "application/json"))
           (Some (JDict
                    [(py "type", JStr (py "speak"));
                     (py "session_id", JStr []);
                     (py "text",
                      JStr (py "Hallo, hier ist der Anrufbeantworter von YuzuHub. Wir sind gerade nicht erreichbar. Bitte hinterlasse eine Nachricht nach dem Signalton, und wir melden uns bei dir."));
                     (py "user_input_timeout_seconds", JInt 30)])))
        [] true.
Proof.
  split; [|split; [|split]].
  - apply (do_POST_statuses sample_secret BEEP sample_loads sample_maxsize
             sample_memory ∅
             (mk_request (Some (py "2")) (Some (py "wrong")) body_empty_object)
             2 body_empty_object).
    + vm_compute; reflexivity.
    + vm_compute; reflexivity.
    + vm_compute; reflexivity.
    + vm_compute. discriminate.
  - apply (do_POST_statuses sample_secret BEEP sample_loads sample_maxsize
             sample_memory ∅
             (mk_request (Some (py "1")) (Some (py "s3cret")) body_truncated)
             1 body_truncated).
    + vm_compute; reflexivity.
    + vm_compute; reflexivity.
    + vm_compute; reflexivity.
    + vm_compute; reflexivity.
  - apply (proj2 (proj2
             (do_POST_statuses sample_secret BEEP sample_loads sample_maxsize
                sample_memory ∅
                (mk_request (Some (py "2")) (Some (py "s3cret"))
                   body_empty_object)
                2 body_empty_object ltac:(vm_compute; reflexivity)
                ltac:(vm_compute; reflexivity)))
             ltac:(vm_compute; reflexivity)
             (JDict []) (mk_outcome ∅ None [])).
    + vm_compute; reflexivity.
    + vm_compute; reflexivity.
    + vm_compute; reflexivity.
  - exact (proj2 (proj2
             (do_POST_statuses [] BEEP sample_loads sample_maxsize
                sample_memory ∅
                (mk_request (Some (py "24")) None body_session_start)
                24 body_session_start ltac:(vm_compute; reflexivity)
                ltac:(vm_compute; reflexivity)))
             ltac:(vm_compute; reflexivity)
             (JDict [(py "type", JStr (py "session_start"))])
             (mk_outcome
                (<[KStr [] := mk_session (JStr (py "unbekannt")) []
                                (Some false) None]> ∅)
                (Some (speak (JStr []) GREETING (Some 30))) [])
             ltac:(vm_compute; reflexivity)
             ltac:(vm_compute; reflexivity)
             ltac:(vm_compute; reflexivity)).
Defined.

(** * Further properties of the webhook *)

(** ** Case analysis on the branch an event takes *)

Ltac by_event_type beep st event :=
  let ty := fresh "ty" in
  let session := fresh "session" in
  let sid := fresh "sid" in
  let e := fresh "e" in
  let Hh := fresh "Hh" in
  let E1 := fresh "Estart" in
  let E2 := fresh "Espeak" in
  let E3 := fresh "Etimeout" in
  let E4 := fresh "Eend" in
  let E5 := fresh "Eended" in
  destruct (event_header event) as [[[ty session] sid]|e] eqn:Hh;
  [ destruct (str_eq ty (py "session_start")) eqn:E1;
    [ rewrite (handle_session_start beep st _ _ _ _ Hh E1)
    | destruct (str_eq ty (py "user_speak")) eqn:E2;
      [ rewrite (handle_user_speak beep st _ _ _ _ Hh E2)
      | destruct (str_eq ty (py "user_input_timeout")) eqn:E3;
        [ rewrite (handle_user_input_timeout beep st _ _ _ _ Hh E3)
        | destruct (str_eq ty (py "session_end")) eqn:E4;
          [ rewrite (handle_session_end beep st _ _ _ _ Hh E4)
          | destruct (str_eq ty (py "assistant_speech_ended")) eqn:E5;
            [ rewrite (handle_assistant_speech_ended beep st _ _ _ _ Hh E5)
            | rewrite (handle_ignored beep st _ _ _ _ Hh E1 E2 E3 E4 E5) ]]]]]
  | rewrite (handle_event_header beep st _ _ Hh) ].

(** ** Sessions do not touch each other *)

Lemma other_session_step (beep : option pystr)
    (st : gmap pykey session_data) (event : json) (k : pykey) :
  event_key event ≠ Some k →
  store_after beep st event !! k = st !! k.
Proof.
  unfold store_after, event_key. intros Hk.
  destruct (handle_event beep st event) as [out|] eqn:Hev; [|reflexivity].
  revert Hev. by_event_type beep st event.
  - intros (c & dir & k' & _ & _ & _ & _ & Hk' & ->)%on_session_start_inv.
    rewrite Hk' in Hk. cbn [out_sessions].
    apply lookup_insert_ne. congruence.
  - intros (s & k' & _ & _ & Hk' & ->)%on_user_speak_inv.
    rewrite Hk' in Hk. cbn [out_sessions].
    assert (k' ≠ k) by congruence.
    destruct (nonempty (strip s)).
    + rewrite lookup_alter_ne by done. by apply ensure_session_other.
    + by apply ensure_session_other.
  - unfold on_user_input_timeout.
    destruct (hash_key sid) as [k'|]; cbn [mbind result_bind];
      [|discriminate].
    assert (k' ≠ k) by congruence.
    destruct (_ && _).
    + intros [= <-]. cbn [out_sessions].
      rewrite lookup_alter_ne by done. by apply ensure_session_other.
    + destruct (negb _); intros [= <-]; cbn [out_sessions];
        by apply ensure_session_other.
  - intros [(-> & _ & ->) | (k' & Hk' & ->)]%on_session_end_inv;
      cbn [out_sessions]; [reflexivity|].
    rewrite Hk' in Hk. apply lookup_delete_ne. congruence.
  - unfold on_assistant_speech_ended.
    destruct (hash_key sid) as [k'|]; cbn [mbind result_bind];
      [|discriminate].
    destruct (_ && _); intros [= <-]; cbn [out_sessions]; [|reflexivity].
    apply lookup_alter_ne. congruence.
  - intros [= <-]. reflexivity.
  - discriminate.
Qed.

(** X1: events whose session id does not address the key [k] leave
    the record stored under [k] exactly as it is, however many of them
    are handled and whatever they are (other calls, events without a
    usable id, events that raise). *)
Theorem other_sessions_untouched (beep : option pystr)
    (events : list json) (k : pykey) :
  Forall (fun ev => event_key ev ≠ Some k) events →
  ∀ st : gmap pykey session_data,
    store_after_all beep st events !! k = st !! k.
Proof.
  unfold store_after_all.
  induction 1 as [|ev events Hev _ IH]; intros st; [reflexivity|].
  cbn [fold_left]. rewrite IH. apply other_session_step, Hev.
Qed.

Lemma other_sessions_untouched_witness :
  store_after_all BEEP two_calls
    [ev_speak "s2" "Y"; ev_timeout "s2"; ev_speech_ended "s2"; JNull;
     ev_end "s2"; ev_start "s2" "+4930123456"] !! s1
  = two_calls !! s1.
Proof.
  apply (other_sessions_untouched BEEP).
  repeat (constructor; [vm_compute; discriminate|]). constructor.
Defined.

(** ** When the dispatcher raises *)





(** ** Where notifications come from *)

(** X3: one event sends at most one notification, and only a
    user_input_timeout or a session_end sends one. When the session id
    is hashable, the session is not yet thanked and the notification
    carries the caller and the whole message list stored under the
    event's own session id before the event (the defaults when there is
    no record). The one other case is a session_end whose id is not
    hashable and that arrives while the store is empty: it notifies
    with the default caller and no message. *)
Theorem notification_provenance (beep : option pystr)
    (st : gmap pykey session_data) (event : json) (out : outcome) :
  handle_event beep st event = Ok out →
  out_notified out = []
  ∨ (∃ ty session sid k,
      event_header event = Ok (ty, session, sid)
      ∧ hash_key sid = Ok k
      ∧ (str_eq ty (py "user_input_timeout") = true
         ∨ str_eq ty (py "session_end") = true)
      ∧ thanked_of st k = false
      ∧ out_notified out
        = [mk_notification
             (from_option caller (JStr (py "unbekannt")) (st !! k))
             (messages_of st k)])
  ∨ (∃ ty session sid,
      event_header event = Ok (ty, session, sid)
      ∧ str_eq ty (py "session_end") = true
      ∧ is_hashable sid = false
      ∧ st = ∅
      ∧ out_notified out = [mk_notification (JStr (py "unbekannt")) []]).
Proof.
  by_event_type beep st event.
  - intros (c & dir & k & _ & _ & _ & _ & _ & ->)%on_session_start_inv.
    left. reflexivity.
  - intros (s & k & _ & _ & _ & ->)%on_user_speak_inv. left. reflexivity.
  - unfold on_user_input_timeout.
    destruct (hash_key sid) as [k|] eqn:Hk; cbn [mbind result_bind]; [|discriminate].
    rewrite ensure_session_lookup. cbn [from_option id].
    destruct (_ && _) eqn:Hc.
    + intros [= <-]. right. left. exists ty, session, sid, k.
      apply andb_true_iff in Hc as [Hm Ht]. apply negb_true_iff in Ht.
      unfold thanked_of, messages_of.
      destruct (st !! k) as [d|]; cbn [from_option id lazy_session messages nonempty] in *;
        [|discriminate].
      repeat split; auto.
    + clear Hc. destruct (negb _); intros [= <-]; left; reflexivity.
  - intros [(-> & Hu & ->) | (k & Hk & ->)]%on_session_end_inv.
    + right. right. exists ty, session, sid. repeat split; auto.
    + cbn [out_notified].
      destruct (from_option is_thanked false (st !! k)) eqn:Ht;
        [left; reflexivity|].
      right. left. exists ty, session, sid, k. repeat split; auto.
  - unfold on_assistant_speech_ended.
    destruct (hash_key sid); cbn [mbind result_bind]; [|discriminate].
    destruct (_ && _); intros [= <-]; left; reflexivity.
  - intros [= <-]. left. reflexivity.
  - discriminate.
Qed.

Lemma notification_provenance_witness :
  out_notified
    (mk_outcome (delete s1 two_calls) None
       [mk_notification (JStr (py "+491701234567")) [py "A"]]) = []
  ∨ (∃ ty session sid k,
      event_header (ev_end "s1") = Ok (ty, session, sid)
      ∧ hash_key sid = Ok k
      ∧ (str_eq ty (py "user_input_timeout") = true
         ∨ str_eq ty (py "session_end") = true)
      ∧ thanked_of two_calls k = false
      ∧ out_notified
          (mk_outcome (delete s1 two_calls) None
             [mk_notification (JStr (py "+491701234567")) [py "A"]])
        = [mk_notification
             (from_option caller (JStr (py "unbekannt")) (two_calls !! k))
             (messages_of two_calls k)])
  ∨ (∃ ty session sid,
      event_header (ev_end "s1") = Ok (ty, session, sid)
      ∧ str_eq ty (py "session_end") = true
      ∧ is_hashable sid = false
      ∧ two_calls = ∅
      ∧ out_notified
          (mk_outcome (delete s1 two_calls) None
             [mk_notification (JStr (py "+491701234567")) [py "A"]])
        = [mk_notification (JStr (py "unbekannt")) []]).
Proof.
  apply (notification_provenance BEEP two_calls (ev_end "s1")).
  vm_compute; reflexivity.
Defined.

(** ** What an action looks like *)

(** X4: every action the dispatcher returns is a speak or an audio
    action and carries, as "session_id", the session id of the event it
    answers. *)
Theorem action_echoes_session_id (beep : option pystr)
    (st : gmap pykey session_data) (event ty session sid : json)
    (out : outcome) (a : json) :
  event_header event = Ok (ty, session, sid) →
  handle_event beep st event = Ok out →
  out_action out = Some a →
  action_for sid a.
Proof.
  intros Hhdr. unfold action_for.
  by_event_type beep st event; try discriminate;
    injection Hhdr as -> -> ->.
  - intros (c & dir & k & _ & _ & _ & _ & _ & ->)%on_session_start_inv.
    intros [= <-]. eexists. split; [reflexivity|].
    split; [reflexivity|left; reflexivity].
  - intros (s & k & _ & _ & _ & ->)%on_user_speak_inv. discriminate.
  - unfold on_user_input_timeout.
    destruct (hash_key sid); cbn [mbind result_bind]; [|discriminate].
    destruct (_ && _).
    + intros [= <-] [= <-]. eexists. split; [reflexivity|].
      split; [reflexivity|left; reflexivity].
    + destruct (negb _); intros [= <-]; [|discriminate].
      intros [= <-]. eexists. split; [reflexivity|].
      split; [reflexivity|left; reflexivity].
  - intros [(-> & _ & ->) | (k & _ & ->)]%on_session_end_inv; discriminate.
  - unfold on_assistant_speech_ended.
    destruct (hash_key sid); cbn [mbind result_bind]; [|discriminate].
    destruct (_ && _); intros [= <-]; [|discriminate].
    intros [= <-]. eexists. split; [reflexivity|].
    split; [reflexivity|right; reflexivity].
  - intros [= <-]. discriminate.
Qed.

Lemma action_echoes_session_id_witness :
  action_for (JStr (py "s1")) (speak (JStr (py "s1")) REPROMPT (Some 15)).
Proof.
  apply (action_echoes_session_id BEEP started (ev_timeout "s1")
           (JStr (py "user_input_timeout"))
           (JDict [(py "id", JStr (py "s1"))]) (JStr (py "s1"))
           (mk_outcome started
              (Some (speak (JStr (py "s1")) REPROMPT (Some 15))) [])).
  - vm_compute; reflexivity.
  - vm_compute; reflexivity.
  - reflexivity.
Defined.

(** ** Stripping twice *)

Lemma lstrip_head (s : pystr) (c : N) (r : pystr) :
  lstrip s = c :: r → is_space c = false.
Proof.
  induction s as [|x s IH]; cbn [lstrip]; [discriminate|].
  destruct (is_space x) eqn:Hx; [exact IH|].
  intros [= <- <-]. exact Hx.
Qed.

Lemma lstrip_fixed (c : N) (r : pystr) :
  is_space c = false → lstrip (c :: r) = c :: r.
Proof. intros H. cbn [lstrip]. rewrite H. reflexivity. Qed.

Lemma lstrip_idempotent (s : pystr) : lstrip (lstrip s) = lstrip s.
Proof.
  destruct (lstrip s) as [|c r] eqn:H; [reflexivity|].
  apply lstrip_fixed. exact (lstrip_head _ _ _ H).
Qed.

Lemma lstrip_suffix (s : pystr) : ∃ w, s = w ++ lstrip s.
Proof.
  induction s as [|x s [w IH]]; [exists []; reflexivity|].
  cbn [lstrip]. destruct (is_space x).
  - exists (x :: w). cbn. f_equal. exact IH.
  - exists []. reflexivity.
Qed.

Lemma rstrip_prefix (s : pystr) : ∃ w, s = rstrip s ++ w.
Proof.
  unfold rstrip. destruct (lstrip_suffix (rev s)) as [w Hw].
  exists (rev w). rewrite <- rev_app_distr, <- Hw, rev_involutive.
  reflexivity.
Qed.

Lemma rstrip_idempotent (s : pystr) : rstrip (rstrip s) = rstrip s.
Proof. unfold rstrip. rewrite rev_involutive, lstrip_idempotent. reflexivity. Qed.

Lemma strip_idempotent (s : pystr) : strip (strip s) = strip s.
Proof.
  unfold strip at 1.
  assert (H : lstrip (strip s) = strip s).
  { unfold strip. destruct (rstrip (lstrip s)) as [|c r] eqn:Hy;
      [reflexivity|].
    apply lstrip_fixed.
    destruct (rstrip_prefix (lstrip s)) as [w Hw]. rewrite Hy in Hw.
    exact (lstrip_head _ _ _ Hw). }
  rewrite H. unfold strip. apply rstrip_idempotent.
Qed.

(** ** Invariants of the stored records *)

Section RecordInvariant.

(** A property that holds of the two records the handler creates and
    is kept by the three updates it makes. *)
Variable P : session_data → Prop.
Hypothesis P_start : ∀ c, P (mk_session c [] (Some false) None).
Hypothesis P_lazy : P lazy_session.
Hypothesis P_append :
  ∀ raw d, P d → nonempty (strip raw) = true →
           P (append_message (strip raw) d).
Hypothesis P_thanked :
  ∀ d, P d → nonempty (messages d) = true → P (set_thanked d).
Hypothesis P_beeped : ∀ d, P d → P (set_beeped d).

Lemma all_records_insert (k : pykey) (d : session_data)
    (st : gmap pykey session_data) :
  P d → all_records P st → all_records P (<[k := d]> st).
Proof.
  intros Hd Hst k' d'. rewrite lookup_insert.
  case_decide; [intros [= <-]; exact Hd|apply Hst].
Qed.

Lemma all_records_delete (k : pykey) (st : gmap pykey session_data) :
  all_records P st → all_records P (delete k st).
Proof.
  intros Hst k' d'. rewrite lookup_delete.
  case_decide; [discriminate|apply Hst].
Qed.

Lemma all_records_alter (f : session_data → session_data) (k : pykey)
    (st : gmap pykey session_data) :
  (∀ d, st !! k = Some d → P d → P (f d)) →
  all_records P st → all_records P (alter f k st).
Proof.
  intros Hf Hst k' d'. rewrite lookup_alter.
  case_decide; [subst k'|apply Hst].
  destruct (st !! k) as [d|] eqn:Hd; [|discriminate].
  intros [= <-]. apply (Hf d); [reflexivity|]. exact (Hst k d Hd).
Qed.

Lemma all_records_ensure (k : pykey) (st : gmap pykey session_data) :
  all_records P st → all_records P (ensure_session k st).
Proof.
  intros Hst. unfold ensure_session. destruct (st !! k); [exact Hst|].
  apply all_records_insert; assumption.
Qed.

Lemma all_records_step (beep : option pystr)
    (st : gmap pykey session_data) (event : json) :
  all_records P st → all_records P (store_after beep st event).
Proof.
  intros Hst. unfold store_after.
  destruct (handle_event beep st event) as [out|] eqn:Hev; [|exact Hst].
  revert Hev. by_event_type beep st event.
  - intros (c & dir & k & _ & _ & _ & _ & _ & ->)%on_session_start_inv.
    cbn [out_sessions].
    apply all_records_insert; [apply P_start|exact Hst].
  - intros (s & k & _ & _ & _ & ->)%on_user_speak_inv. cbn [out_sessions].
    destruct (nonempty (strip s)) eqn:Hne.
    + apply all_records_alter; [|apply all_records_ensure, Hst].
      intros d _ Hd. apply P_append; assumption.
    + apply all_records_ensure, Hst.
  - unfold on_user_input_timeout.
    destruct (hash_key sid) as [k|]; cbn [mbind result_bind];
      [|discriminate].
    destruct (_ && _) eqn:Hc.
    + intros [= <-]. cbn [out_sessions].
      apply all_records_alter; [|apply all_records_ensure, Hst].
      intros d Hd HP. apply P_thanked; [exact HP|].
      rewrite Hd in Hc. cbn [from_option id] in Hc.
      apply andb_true_iff in Hc as [Hc _]. exact Hc.
    + clear Hc. destruct (negb _); intros [= <-]; cbn [out_sessions];
        apply all_records_ensure, Hst.
  - intros [(He & _ & ->) | (k & _ & ->)]%on_session_end_inv;
      cbn [out_sessions]; [rewrite <- He; exact Hst|].
    apply all_records_delete, Hst.
  - unfold on_assistant_speech_ended.
    destruct (hash_key sid) as [k|]; cbn [mbind result_bind];
      [|discriminate].
    destruct (_ && _); intros [= <-]; cbn [out_sessions]; [|exact Hst].
    apply all_records_alter; [|exact Hst].
    intros d _ Hd. apply P_beeped, Hd.
  - intros [= <-]. exact Hst.
  - discriminate.
Qed.

Lemma all_records_run (beep : option pystr) (events : list json) :
  ∀ st, all_records P st → all_records P (store_after_all beep st events).
Proof.
  unfold store_after_all.
  induction events as [|ev events IH]; intros st Hst; [exact Hst|].
  cbn [fold_left]. apply IH, all_records_step, Hst.
Qed.

End RecordInvariant.

(** X5: in every store reached from one where it holds (the empty
    store of start-up in particular), by any events whatever, a record
    that is thanked has at least one message: the thank-you is only
    ever given for a message. *)
Theorem thanked_records_have_messages (beep : option pystr)
    (st : gmap pykey session_data) (events : list json) :
  all_records thanked_has_messages st →
  all_records thanked_has_messages (store_after_all beep st events).
Proof.
  apply all_records_run; unfold thanked_has_messages.
  - intros c. discriminate.
  - discriminate.
  - intros raw d _ _ _. cbn. destruct (messages d); discriminate.
  - intros d _ Hne _. cbn. destruct (messages d); [discriminate|done].
  - intros d Hd. exact Hd.
Qed.

Lemma thanked_records_have_messages_witness :
  all_records thanked_has_messages
    (store_after_all BEEP ∅
       [ev_start "s1" "+491701234567"; ev_timeout "s1"; ev_speak "s1" "A";
        ev_timeout "s1"; ev_end "s1"; ev_timeout "s1"]).
Proof.
  apply (thanked_records_have_messages BEEP ∅).
  intros k d H. rewrite lookup_empty in H. discriminate.
Defined.

(** X6: in every store reached from one where it holds (the empty
    store in particular), every stored message is non-empty and has no
    whitespace at its ends, so a notification never lists a blank
    line. *)
Theorem stored_messages_are_trimmed (beep : option pystr)
    (st : gmap pykey session_data) (events : list json) :
  all_records messages_trimmed st →
  all_records messages_trimmed (store_after_all beep st events).
Proof.
  apply all_records_run; unfold messages_trimmed.
  - intros c. constructor.
  - constructor.
  - intros raw d Hd Hne. cbn [append_message messages].
    apply Forall_app. split; [exact Hd|].
    constructor; [|constructor]. split; [|apply strip_idempotent].
    destruct (strip raw); [discriminate|done].
  - intros d Hd _. exact Hd.
  - intros d Hd. exact Hd.
Qed.

Lemma stored_messages_are_trimmed_witness :
  all_records messages_trimmed
    (store_after_all BEEP ∅
       [ev_speak "s1" "  Hallo  "; ev_speak "s1" "   "; ev_speak "s2" " A"]).
Proof.
  apply (stored_messages_are_trimmed BEEP ∅).
  intros k d H. rewrite lookup_empty in H. discriminate.
Defined.

(** ** A record only grows *)

Lemma event_key_inv (event : json) (k : pykey) :
  event_key event = Some k →
  ∃ ty session sid,
    event_header event = Ok (ty, session, sid) ∧ hash_key sid = Ok k.
Proof.
  unfold event_key.
  destruct (event_header event) as [[[ty session] sid]|]; [|discriminate].
  destruct (hash_key sid) as [k'|] eqn:Hk; [|discriminate].
  intros [= <-]. eauto.
Qed.

Lemma record_grows_step (beep : option pystr)
    (st : gmap pykey session_data) (event : json) (k : pykey)
    (d : session_data) :
  resets k event = false →
  st !! k = Some d →
  ∃ d' more, store_after beep st event !! k = Some d'
    ∧ caller d' = caller d
    ∧ messages d' = messages d ++ more.
Proof.
  intros Hres Hd.
  destruct (decide (event_key event = Some k)) as [Hk|Hk];
    [|rewrite (other_session_step beep st event k Hk);
      exists d, []; rewrite app_nil_r; auto].
  apply event_key_inv in Hk as (ty0 & session0 & sid0 & Hh0 & Hk).
  unfold store_after, resets in *. rewrite Hh0, Hk in Hres.
  rewrite bool_decide_eq_true_2, andb_true_r in Hres by reflexivity.
  apply orb_false_iff in Hres as [Hns Hne].
  destruct (handle_event beep st event) as [out|] eqn:Hev;
    [|exists d, []; rewrite app_nil_r; auto].
  revert Hev.
  by_event_type beep st event; try discriminate;
    injection Hh0 as -> -> ->; try congruence.
  - intros (s & k' & _ & _ & Hk' & ->)%on_user_speak_inv.
    rewrite Hk in Hk'. injection Hk' as <-. cbn [out_sessions].
    rewrite (ensure_session_known _ _ _ Hd).
    destruct (nonempty (strip s)).
    + rewrite lookup_alter_eq, Hd.
      exists (append_message (strip s) d), [strip s]. auto.
    + exists d, []. rewrite app_nil_r. auto.
  - unfold on_user_input_timeout. rewrite Hk. cbn [mbind result_bind].
    rewrite (ensure_session_known _ _ _ Hd).
    destruct (_ && _).
    + intros [= <-]. cbn [out_sessions].
      rewrite lookup_alter_eq, Hd. exists (set_thanked d), [].
      rewrite app_nil_r. auto.
    + destruct (negb _); intros [= <-]; cbn [out_sessions]; exists d, [];
        rewrite app_nil_r; auto.
  - unfold on_assistant_speech_ended. rewrite Hk. cbn [mbind result_bind].
    destruct (_ && _); intros [= <-]; cbn [out_sessions].
    + rewrite lookup_alter_eq, Hd. exists (set_beeped d), [].
      rewrite app_nil_r. auto.
    + exists d, []. rewrite app_nil_r. auto.
  - intros [= <-]. exists d, []. rewrite app_nil_r. auto.
Qed.

(** X7: as long as no session_start or session_end for its id is
    handled, a stored record stays in the store, keeps its caller, and
    its message list only grows at the end: what it held stays a
    prefix, in order. *)
Theorem record_only_grows (beep : option pystr) (events : list json)
    (k : pykey) :
  Forall (fun ev => resets k ev = false) events →
  ∀ (st : gmap pykey session_data) (d : session_data),
    st !! k = Some d →
    ∃ d' more, store_after_all beep st events !! k = Some d'
      ∧ caller d' = caller d
      ∧ messages d' = messages d ++ more.
Proof.
  unfold store_after_all.
  induction 1 as [|ev events Hev _ IH]; intros st d Hd.
  - exists d, []. rewrite app_nil_r. auto.
  - destruct (record_grows_step beep st ev k d Hev Hd)
      as (d1 & m1 & Hd1 & Hc1 & Hm1).
    destruct (IH _ _ Hd1) as (d2 & m2 & Hd2 & Hc2 & Hm2).
    exists d2, (m1 ++ m2). cbn [fold_left].
    rewrite Hd2, Hc2, Hc1, Hm2, Hm1, app_assoc. auto.
Qed.

Lemma record_only_grows_witness :
  ∃ d' more,
    store_after_all BEEP two_calls
      [ev_speak "s1" "B"; ev_timeout "s1"; ev_end "s2"; ev_speak "s1" "C";
       ev_speech_ended "s1"] !! s1 = Some d'
    ∧ caller d'
      = caller (mk_session (JStr (py "+491701234567")) [py "A"]
                  (Some false) None)
    ∧ messages d'
      = messages (mk_session (JStr (py "+491701234567")) [py "A"]
                    (Some false) None) ++ more.
Proof.
  apply (record_only_grows BEEP).
  - repeat (constructor; [vm_compute; reflexivity|]). constructor.
  - vm_compute; reflexivity.
Defined.

(** ** The start of a call *)

(** X8: a session_start whose caller and direction can be printed
    replaces whatever is stored under its id: followed directly by the
    session_end, the dispatcher answers it with the speak action that
    carries the greeting and a 30 second input timeout, and the
    session_end with no action, and the one notification sent carries
    the caller of the session_start (from from_phone_number,
    "unbekannt" when that member is missing) and an empty message
    list, whatever messages the id had collected before. *)
Theorem session_start_discards_messages (beep : option pystr)
    (st : gmap pykey session_data) (e1 e2 ty : json)
    (fields : list (pystr * json)) (sid : pystr) :
  event_header e1 = Ok (ty, JDict fields, JStr sid) →
  str_eq ty (py "session_start") = true →
  printable (default (JStr (py "unbekannt"))
               (dict_get (py "from_phone_number") fields)) = true →
  printable (default (JStr (py "inbound"))
               (dict_get (py "direction") fields)) = true →
  event_is (py "session_end") sid e2 = true →
  run beep st [e1; e2]
  = Ok (mk_trace (delete (KStr sid) st)
          [Some (JDict
                   [(py "type", JStr (py "speak"));
                    (py "session_id", JStr sid);
                    (py "text",
                     JStr (py "Hallo, hier ist der Anrufbeantworter von YuzuHub. Wir sind gerade nicht erreichbar. Bitte hinterlasse eine Nachricht nach dem Signalton, und wir melden uns bei dir."));
                    (py "user_input_timeout_seconds", JInt 30)]);
           None]
          [mk_notification
             (default (JStr (py "unbekannt"))
                (dict_get (py "from_phone_number") fields))
             []]).
Proof.
  intros Hh Ht Hpc Hpd Hend.
  cbn [run mbind result_bind].
  rewrite (handle_session_start beep st _ _ _ _ Hh Ht).
  rewrite (on_session_start_ok st (JDict fields) (JStr sid) _ _ (KStr sid)
             eq_refl eq_refl Hpc Hpd eq_refl).
  cbn [mbind result_bind out_sessions].
  rewrite (session_end_step beep _ e2 sid Hend).
  unfold thanked_of, messages_of. rewrite lookup_insert_eq.
  cbn [from_option is_thanked thanked messages caller mbind result_bind
       out_sessions out_action out_notified tr_sessions tr_actions
       tr_notified app].
  rewrite delete_insert_eq. reflexivity.
Qed.

Lemma session_start_discards_messages_witness :
  run BEEP two_calls [mk_event "session_start" "s1" []; ev_end "s1"]
  = Ok (mk_trace (delete (KStr (py "s1")) two_calls)
          [Some (JDict
                   [(py "type", JStr (py "speak"));
                    (py "session_id", JStr (py "s1"));
                    (py "text",
                     JStr (py "Hallo, hier ist der Anrufbeantworter von YuzuHub. Wir sind gerade nicht erreichbar. Bitte hinterlasse eine Nachricht nach dem Signalton, und wir melden uns bei dir."));
                    (py "user_input_timeout_seconds", JInt 30)]);
           None]
          [mk_notification
             (default (JStr (py "unbekannt"))
                (dict_get (py "from_phone_number")
                   [(py "id", JStr (py "s1"))]))
             []]).
Proof.
  apply (session_start_discards_messages BEEP two_calls
           (mk_event "session_start" "s1" []) (ev_end "s1")
           (JStr (py "session_start")) [(py "id", JStr (py "s1"))]
           (py "s1")).
  - vm_compute; reflexivity.
  - vm_compute; reflexivity.
  - vm_compute; reflexivity.
  - vm_compute; reflexivity.
  - vm_compute; reflexivity.
Defined.

(** ** A timeout that arrives twice *)

(** X9: for a session with messages that is not yet thanked, two
    user_input_timeout events in a row give the speak action with the
    thank-you (and no input timeout) and then no action, and one
    notification in all, with the record's caller and messages; the
    first event sets the record's thanked flag and changes nothing
    else, the second event changes nothing. *)
Theorem second_timeout_is_silent (beep : option pystr)
    (st : gmap pykey session_data) (sid : pystr) (d : session_data)
    (e1 e2 : json) :
  st !! KStr sid = Some d →
  messages d ≠ [] →
  is_thanked d = false →
  event_is (py "user_input_timeout") sid e1 = true →
  event_is (py "user_input_timeout") sid e2 = true →
  run beep st [e1; e2]
  = Ok (mk_trace
          (<[KStr sid :=
               mk_session (caller d) (messages d) (beeped d) (Some true)]> st)
          [Some (JDict
                   [(py "type", JStr (py "speak"));
                    (py "session_id", JStr sid);
                    (py "text",
                     JStr (py "Danke f" ++ [252%N]
                           ++ py "r deine Nachricht. Wir melden uns so bald wie m"
                           ++ [246%N] ++ py "glich. Tsch" ++ [252%N]
                           ++ py "ss!"))]);
           None]
          [mk_notification (caller d) (messages d)]).
Proof.
  intros Hd Hm Ht H1 H2.
  destruct (timeout_thanks beep st e1 sid H1) as (d1 & Hd1 & Hstep1).
  { unfold messages_of. rewrite Hd. exact Hm. }
  { unfold thanked_of. rewrite Hd. exact Ht. }
  rewrite Hd in Hd1. injection Hd1 as <-.
  assert (Hst : alter set_thanked (KStr sid) st
                = <[KStr sid :=
                      mk_session (caller d) (messages d) (beeped d)
                        (Some true)]> st).
  { apply map_eq. intros k. rewrite lookup_alter, lookup_insert.
    case_decide; [subst; rewrite Hd|]; reflexivity. }
  rewrite Hst in Hstep1.
  apply event_is_inv in H2 as (t & session & Hh & Hty).
  cbn [run mbind result_bind]. rewrite Hstep1.
  cbn [mbind result_bind out_sessions].
  rewrite (handle_user_input_timeout beep _ _ _ _ _ Hh Hty).
  unfold on_user_input_timeout. cbn [hash_key mbind result_bind].
  rewrite (ensure_session_known _ _
             (mk_session (caller d) (messages d) (beeped d) (Some true)))
    by apply lookup_insert_eq.
  rewrite lookup_insert_eq. cbn [from_option id messages].
  destruct (messages d) as [|m ms]; [done|].
  reflexivity.
Qed.

Lemma second_timeout_is_silent_witness :
  run BEEP two_calls [ev_timeout "s1"; ev_timeout "s1"]
  = Ok (mk_trace
          (<[KStr (py "s1") :=
               mk_session (JStr (py "+491701234567")) [py "A"]
                 (Some false) (Some true)]> two_calls)
          [Some (JDict
                   [(py "type", JStr (py "speak"));
                    (py "session_id", JStr (py "s1"));
                    (py "text",
                     JStr (py "Danke f" ++ [252%N]
                           ++ py "r deine Nachricht. Wir melden uns so bald wie m"
                           ++ [246%N] ++ py "glich. Tsch" ++ [252%N]
                           ++ py "ss!"))]);
           None]
          [mk_notification (JStr (py "+491701234567")) [py "A"]]).
Proof.
  apply (second_timeout_is_silent BEEP two_calls (py "s1")
           (mk_session (JStr (py "+491701234567")) [py "A"]
              (Some false) None)).
  - vm_compute; reflexivity.
  - discriminate.
  - reflexivity.
  - vm_compute; reflexivity.
  - vm_compute; reflexivity.
Defined.

(** ** An id that comes back after the end of its call *)

(** X10: after a session_end the id has no record, and a user_speak
    that arrives for it afterwards (with a text that can be printed
    once stripped) starts from nothing: the new record has the caller
    "unbekannt", no flags, and only the new utterance; nothing of the
    ended call comes back. *)
Theorem speech_after_end_starts_afresh (beep : option pystr)
    (st : gmap pykey session_data) (sid text : pystr) (e1 e2 : json) :
  event_is (py "session_end") sid e1 = true →
  utterance sid e2 = Some text →
  encodable (strip text) = true →
  store_after beep st e1 !! KStr sid = None
  ∧ store_after_all beep st [e1; e2] !! KStr sid
    = Some (mk_session (JStr (py "unbekannt")) (kept [text]) None None).
Proof.
  intros H1 H2 Henc. unfold store_after_all. cbn [fold_left].
  assert (Hs : store_after beep st e1 = delete (KStr sid) st).
  { unfold store_after. rewrite (session_end_step beep st e1 sid H1).
    reflexivity. }
  rewrite Hs. split; [apply lookup_delete_eq|].
  apply utterance_inv in H2 as (t & session & Hh & Ht & Htext).
  unfold store_after.
  rewrite (handle_user_speak beep _ _ _ _ _ Hh Ht).
  rewrite (on_user_speak_ok _ e2 (JStr sid) text (KStr sid)
             Htext Henc eq_refl).
  cbn [out_sessions].
  rewrite kept_cons. unfold kept. cbn [map]. rewrite filter_nil, app_nil_r.
  destruct (nonempty (strip text)).
  - rewrite lookup_alter_eq, ensure_session_lookup, lookup_delete_eq.
    reflexivity.
  - rewrite ensure_session_lookup, lookup_delete_eq. reflexivity.
Qed.

Lemma speech_after_end_starts_afresh_witness :
  store_after BEEP two_calls (ev_end "s1") !! KStr (py "s1") = None
  ∧ store_after_all BEEP two_calls [ev_end "s1"; ev_speak "s1" " B "]
      !! KStr (py "s1")
    = Some (mk_session (JStr (py "unbekannt")) (kept [py " B "]) None None).
Proof.
  apply (speech_after_end_starts_afresh BEEP two_calls (py "s1") (py " B ")).
  - vm_compute; reflexivity.
  - vm_compute; reflexivity.
  - vm_compute; reflexivity.
Defined.

(** ** The tone *)

Lemma lstrip_nil_blank (s : pystr) : lstrip s = [] → blank s = true.
Proof.
  induction s as [|c s IH]; cbn [lstrip blank forallb]; [reflexivity|].
  destruct (is_space c); [exact IH|discriminate].
Qed.

Lemma blank_app (a b : pystr) : blank (a ++ b) = blank a && blank b.
Proof. apply forallb_app. Qed.

Lemma blank_rev (s : pystr) : blank (rev s) = blank s.
Proof.
  induction s as [|c s IH]; [reflexivity|].
  cbn [rev]. rewrite blank_app, IH. cbn [blank forallb].
  rewrite andb_true_r. apply andb_comm.
Qed.

Lemma lstrip_blank_prefix (s : pystr) :
  ∃ w, s = w ++ lstrip s ∧ blank w = true.
Proof.
  induction s as [|x s (w & IH & Hw)]; [exists []; auto|].
  cbn [lstrip]. destruct (is_space x) eqn:Hx.
  - exists (x :: w). cbn [app blank forallb]. rewrite Hx.
    split; [f_equal; exact IH|exact Hw].
  - exists []. auto.
Qed.

Lemma strip_nil_blank (s : pystr) : strip s = [] ↔ blank s = true.
Proof.
  split; [|apply strip_blank].
  unfold strip, rstrip. intros H.
  apply (f_equal (@rev N)) in H. rewrite rev_involutive in H. cbn in H.
  apply lstrip_nil_blank in H. rewrite blank_rev in H.
  destruct (lstrip_blank_prefix s) as (w & Hs & Hw).
  rewrite Hs, blank_app, Hw, H. reflexivity.
Qed.

(** X11: loading the tone ends with a loaded tone exactly when
    beep.b64 could be read and holds something other than whitespace,
    and it ends with the beep switched off exactly when the file is
    missing or holds nothing but whitespace; a file that is there but
    cannot be opened, read or decoded gives neither: the exception is
    not caught and the module stops. *)
Theorem beep_loaded_iff (file : beep_file) :
  ((∃ b, load_beep file = Ok b ∧ beep_loaded b = true)
   ↔ ∃ s, file = FileText s ∧ blank s = false)
  ∧ ((∃ b, load_beep file = Ok b ∧ beep_loaded b = false)
     ↔ file = NoFile ∨ ∃ s, file = FileText s ∧ blank s = true)
  ∧ ((∃ e, load_beep file = Raise e) ↔ ∃ e, file = Unreadable e).
Proof.
  unfold beep_loaded, load_beep. destruct file as [|e|s].
  - split; [|split].
    + split; [intros (b & [= <-] & [=])|intros (s & [=] & _)].
    + split; [auto|]. intros _. exists None. auto.
    + split; [intros (e & [=])|intros (e & [=])].
  - split; [|split].
    + split; [intros (b & [=] & _)|intros (s & [=] & _)].
    + split; [intros (b & [=] & _)|intros [[=]|(s & [=] & _)]].
    + split; eauto.
  - split; [|split].
    + split.
      * intros (b & [= <-] & Hb). exists s. split; [reflexivity|].
        destruct (blank s) eqn:Hbl; [|reflexivity].
        apply strip_nil_blank in Hbl. rewrite Hbl in Hb. discriminate.
      * intros (s' & [= <-] & Hb). exists (Some (strip s)).
        split; [reflexivity|].
        destruct (strip s) as [|c r] eqn:Hs; [|reflexivity].
        apply strip_nil_blank in Hs. congruence.
    + split.
      * intros (b & [= <-] & Hb). right. exists s. split; [reflexivity|].
        apply strip_nil_blank.
        destruct (strip s); [reflexivity|discriminate].
      * intros [[=]|(s' & [= <-] & Hb)]. exists (Some (strip s)).
        split; [reflexivity|].
        apply strip_nil_blank in Hb. rewrite Hb. reflexivity.
    + split; [intros (e & [=])|intros (e & [=])].
Qed.

Lemma is_audio_speak (sid : json) (text : pystr) (timeout : option Z) :
  is_audio (speak sid text timeout) = false.
Proof. reflexivity. Qed.

(** X12: when the tone is not loaded no event is ever answered with
    an audio action, and an assistant_speech_ended leaves the store as
    it is and gets no action. *)
Theorem no_tone_no_audio (beep : option pystr)
    (st : gmap pykey session_data) (event : json) (out : outcome) :
  beep_loaded beep = false →
  handle_event beep st event = Ok out →
  (∀ a, out_action out = Some a → is_audio a = false)
  ∧ (∀ sid, event_is (py "assistant_speech_ended") sid event = true →
            out = mk_outcome st None []).
Proof.
  intros Hb Hout. split.
  - revert Hout. by_event_type beep st event; try discriminate.
    + intros (c & dir & k & _ & _ & _ & _ & _ & ->)%on_session_start_inv.
      intros a [= <-]. apply is_audio_speak.
    + intros (s & k & _ & _ & _ & ->)%on_user_speak_inv. intros a [=].
    + unfold on_user_input_timeout.
      destruct (hash_key sid) as [k|]; cbn [mbind result_bind]; [|discriminate].
      destruct (_ && _).
      * intros [= <-] a [= <-]. apply is_audio_speak.
      * destruct (negb _); intros [= <-] a [= Ha]; subst a.
        apply is_audio_speak.
    + intros [(_ & _ & ->) | (k & _ & ->)]%on_session_end_inv;
        intros a [=].
    + unfold on_assistant_speech_ended.
      destruct (hash_key sid) as [k|]; cbn [mbind result_bind]; [|discriminate].
      rewrite Hb, andb_false_r. intros [= <-] a [=].
    + intros [= <-] a [=].
  - intros sid Hev.
    rewrite (speech_ended_step beep st event sid Hev), Hb, andb_false_r in Hout.
    congruence.
Qed.

Lemma no_tone_no_audio_witness :
  (∀ a, out_action (mk_outcome started None []) = Some a →
        is_audio a = false)
  ∧ (∀ sid,
       event_is (py "assistant_speech_ended") sid (ev_speech_ended "s1")
       = true →
       mk_outcome started None [] = mk_outcome started None []).
Proof.
  apply (no_tone_no_audio (Some []) started
           (ev_speech_ended "s1")).
  - vm_compute; reflexivity.
  - vm_compute; reflexivity.
Defined.

(** ** More on requests *)

Lemma rfile_read_zero (maxsize memory : N) (stream : list N) :
  rfile_read maxsize memory 0 stream = Ok [].
Proof.
  unfold rfile_read.
  destruct (Z.ltb_spec (Z.of_N maxsize) 0); [lia|].
  destruct (Z.ltb_spec 0 (- Z.of_N maxsize - 1)); [lia|].
  destruct (Z.ltb_spec (Z.of_N memory) 0); [lia|].
  reflexivity.
Qed.

(** X13: with a secret configured, a request whose token is missing
    or wrong never reaches the dispatcher, whatever its headers and
    body: the store is untouched, nothing is sent, and the request is
    either answered with 401 or gets no answer because reading its
    Content-Length or its body raised (ValueError for a length int()
    rejects or one below -1, OverflowError for one beyond sys.maxsize,
    MemoryError for one no buffer can hold). *)
Theorem unauthenticated_never_dispatched (SECRET : pystr)
    (beep : option pystr) (json_loads : list N → result json)
    (maxsize memory : N)
    (st : gmap pykey session_data) (req : request) :
  nonempty SECRET = true →
  default [] (x_api_token req) ≠ SECRET →
  do_POST SECRET beep json_loads maxsize memory st req
  = mk_post st (Responded 401 None None) [] false
  ∨ ∃ e, (e = ValueError ∨ e = OverflowError ∨ e = MemoryError)
      ∧ do_POST SECRET beep json_loads maxsize memory st req
        = mk_post st (Crashed e) [] false.
Proof.
  intros Hs Hne. unfold do_POST.
  destruct (from_option py_int (Some 0) (content_length req)) as [n|];
    [|right; exists ValueError; auto].
  unfold rfile_read.
  destruct (_ || _); [right; exists OverflowError; auto|].
  destruct (n <? -1); [right; exists ValueError; auto|].
  destruct (n =? -1).
  - rewrite (authorized_false _ _ Hs Hne). left. reflexivity.
  - destruct (Z.of_N memory <? n); [right; exists MemoryError; auto|].
    rewrite (authorized_false _ _ Hs Hne). left. reflexivity.
Qed.

Lemma unauthenticated_never_dispatched_witness :
  do_POST sample_secret BEEP sample_loads sample_maxsize sample_memory
    two_calls (mk_request (Some (py "24")) None body_session_start)
  = mk_post two_calls (Responded 401 None None) [] false
  ∨ ∃ e, (e = ValueError ∨ e = OverflowError ∨ e = MemoryError)
      ∧ do_POST sample_secret BEEP sample_loads sample_maxsize sample_memory
          two_calls (mk_request (Some (py "24")) None body_session_start)
        = mk_post two_calls (Crashed e) [] false.
Proof.
  apply (unauthenticated_never_dispatched sample_secret BEEP sample_loads
           sample_maxsize sample_memory
           two_calls (mk_request (Some (py "24")) None body_session_start)).
  - reflexivity.
  - vm_compute. discriminate.
Defined.

(** X14: whatever the request, an answer is one of four: 200 with the
    JSON content type and a body, sent only after the dispatcher ran, or
    204, 400 or 401 with neither content type nor body. *)
Theorem reply_shapes (SECRET : pystr) (beep : option pystr)
    (json_loads : list N → result json) (maxsize memory : N)
    (st : gmap pykey session_data) (req : request)
    (status : Z) (ctype : option pystr) (body : option json) :
  post_reply (do_POST SECRET beep json_loads maxsize memory st req)
  = Responded status ctype body →
  (status = 200 ∧ ctype = Some (py "application/json") ∧ is_Some body
   ∧ post_dispatched (do_POST SECRET beep json_loads maxsize memory st req)
     = true)
  ∨ ((status = 204 ∨ status = 400 ∨ status = 401)
     ∧ ctype = None ∧ body = None).
Proof.
  unfold do_POST.
  destruct (from_option py_int (Some 0) (content_length req));
    [|discriminate].
  destruct (rfile_read _ _ _ _) as [bytes|]; [|discriminate].
  destruct (negb (authorized SECRET req));
    [intros [= <- <- <-]; right; auto|].
  destruct (json_loads _) as [event|e]; cbn [post_reply];
    [|destruct e; try discriminate; intros [= <- <- <-]; right; auto].
  destruct (log_line event); [|discriminate].
  destruct (handle_event beep st event) as [out|] eqn:Hout; [|discriminate].
  cbn [post_reply post_dispatched].
  rewrite (action_is_truthy _ _ _ _ Hout).
  destruct (out_action out) as [act|]; cbn.
  - intros [= <- <- <-]. left. eauto.
  - intros [= <- <- <-]. right. auto.
Qed.

Lemma reply_shapes_witness :
  (204 = 200 ∧ None = Some (py "application/json") ∧ is_Some (@None json)
   ∧ post_dispatched
       (do_POST sample_secret BEEP sample_loads sample_maxsize sample_memory
          ∅
          (mk_request (Some (py "2")) (Some (py "s3cret")) body_empty_object))
     = true)
  ∨ ((204 = 204 ∨ 204 = 400 ∨ 204 = 401)
     ∧ @None pystr = None ∧ @None json = None).
Proof.
  apply (reply_shapes sample_secret BEEP sample_loads sample_maxsize
           sample_memory ∅
           (mk_request (Some (py "2")) (Some (py "s3cret")) body_empty_object)).
  vm_compute; reflexivity.
Defined.

Lemma new_key_is_event_key (beep : option pystr)
    (st : gmap pykey session_data) (event : json) (k : pykey) :
  is_Some (store_after beep st event !! k) →
  is_Some (st !! k) ∨ event_key event = Some k.
Proof.
  intros H. destruct (decide (event_key event = Some k)) as [Hk|Hk];
    [right; exact Hk|left].
  rewrite (other_session_step beep st event k Hk) in H. exact H.
Qed.

Lemma logged_key_is_string (event : json) (k : pykey) :
  log_line event = Ok tt → event_key event = Some k → ∃ s, k = KStr s.
Proof.
  intros Hlog Hk. apply event_key_inv in Hk as (ty & session & sid & Hh & Hk).
  apply event_header_inv in Hh as (d & sd & -> & _ & _ & Hs & ->).
  unfold log_line in Hlog. cbn [py_get mbind result_bind] in Hlog.
  rewrite Hs in Hlog. cbn [py_get mbind result_bind] in Hlog.
  destruct (default (JStr []) (dict_get (py "id") sd)) as [| | |s|l|];
    try discriminate.
  injection Hk as <-. eauto.
Qed.

(** X15: requests only ever create records under string keys: if
    every key of the store is a string before a request, every key is
    a string after it, whatever the request (an id that is a number,
    true, false or null is stopped by the log line before the
    dispatcher, and a list or object cannot be a key). *)
Theorem requests_keep_string_keys (SECRET : pystr) (beep : option pystr)
    (json_loads : list N → result json) (maxsize memory : N)
    (st : gmap pykey session_data) (req : request) :
  string_keys st →
  string_keys
    (post_sessions (do_POST SECRET beep json_loads maxsize memory st req)).
Proof.
  intros Hst. unfold do_POST.
  destruct (from_option py_int (Some 0) (content_length req)); [|exact Hst].
  destruct (rfile_read _ _ _ _) as [bytes|]; [|exact Hst].
  destruct (negb (authorized SECRET req)); [exact Hst|].
  destruct (json_loads _) as [event|e]; [|destruct e; exact Hst].
  destruct (log_line event) as [[]|] eqn:Hlog; [|exact Hst].
  destruct (handle_event beep st event) as [out|] eqn:Hout; [|exact Hst].
  cbn [post_sessions]. intros k Hk.
  assert (Hafter : store_after beep st event = out_sessions out).
  { unfold store_after. rewrite Hout. reflexivity. }
  rewrite <- Hafter in Hk.
  destruct (new_key_is_event_key beep st event k Hk) as [Hold|Hnew].
  - apply Hst, Hold.
  - exact (logged_key_is_string event k Hlog Hnew).
Qed.

Lemma requests_keep_string_keys_witness :
  string_keys
    (post_sessions
       (do_POST [] BEEP sample_loads sample_maxsize sample_memory ∅
          (mk_request (Some (py "24")) None body_session_start))).
Proof.
  apply (requests_keep_string_keys [] BEEP sample_loads sample_maxsize
           sample_memory ∅).
  intros k [d H]. rewrite lookup_empty in H. discriminate.
Defined.

(** X16: a request without a Content-Length header is handled as one
    with an empty body, whatever was sent after the headers: once the
    token check has passed it is answered with 400 (json.loads rejects
    the empty body), and the dispatcher is not called. *)
Theorem missing_content_length_is_400 (SECRET : pystr)
    (beep : option pystr) (json_loads : list N → result json)
    (maxsize memory : N)
    (st : gmap pykey session_data) (req : request) :
  content_length req = None →
  authorized SECRET req = true →
  json_loads [] = Raise JSONDecodeError →
  do_POST SECRET beep json_loads maxsize memory st req
  = mk_post st (Responded 400 None None) [] false.
Proof.
  intros Hlen Ha Hloads. unfold do_POST. rewrite Hlen, Ha.
  cbn [from_option negb]. rewrite rfile_read_zero, Hloads. reflexivity.
Qed.

Lemma missing_content_length_is_400_witness :
  do_POST sample_secret BEEP sample_loads sample_maxsize sample_memory
    two_calls (mk_request None (Some (py "s3cret")) body_session_start)
  = mk_post two_calls (Responded 400 None None) [] false.
Proof.
  apply (missing_content_length_is_400 sample_secret BEEP sample_loads
           sample_maxsize sample_memory two_calls
           (mk_request None (Some (py "s3cret")) body_session_start)).
  - reflexivity.
  - vm_compute; reflexivity.
  - vm_compute; reflexivity.
Defined.

(** ** Messages that come after the thank-you *)

Lemma in_call_messages_step (beep : option pystr)
    (st : gmap pykey session_data) (event : json) (sid : pystr) :
  in_call sid event = true →
  ∃ out, handle_event beep st event = Ok out
    ∧ messages_of (out_sessions out) (KStr sid)
      = messages_of st (KStr sid)
        ++ kept (from_option (fun t => [t]) [] (utterance sid event)).
Proof.
  intros Hin.
  apply in_call_inv in Hin
    as (ty & session & text & Hh & Htext & E1 & E4 & Henc).
  destruct (str_eq ty (py "user_speak")) eqn:E2.
  { assert (Hu : utterance sid event = Some text).
    { unfold utterance, event_is. rewrite Hh, E2, pystr_eqb_refl, Htext.
      reflexivity. }
    destruct (utterance_step beep st event sid text Hu (Henc eq_refl))
      as (st' & -> & Hm & _).
    rewrite Hu. eexists. split; [reflexivity|]. exact Hm. }
  assert (Hu : utterance sid event = None).
  { unfold utterance, event_is. rewrite Hh, E2. reflexivity. }
  rewrite Hu. cbn [from_option]. change (kept []) with (@nil pystr).
  rewrite app_nil_r.
  destruct (str_eq ty (py "user_input_timeout")) eqn:E3.
  { rewrite (handle_user_input_timeout beep st _ _ _ _ Hh E3).
    unfold on_user_input_timeout. cbn [hash_key mbind result_bind].
    destruct (_ && _); [|destruct (negb _)];
      eexists; (split; [reflexivity|]); cbn [out_sessions];
      unfold messages_of; rewrite ?lookup_alter_eq, ensure_session_lookup;
      destruct (st !! KStr sid); reflexivity. }
  destruct (str_eq ty (py "assistant_speech_ended")) eqn:E5.
  { assert (Hev : event_is (py "assistant_speech_ended") sid event = true).
    { unfold event_is. rewrite Hh, E5, pystr_eqb_refl. reflexivity. }
    rewrite (speech_ended_step beep st event sid Hev).
    destruct (_ && _); eexists; (split; [reflexivity|]); [|reflexivity].
    cbn [out_sessions]. unfold messages_of. rewrite lookup_alter_eq.
    destruct (st !! KStr sid); reflexivity. }
  rewrite (handle_ignored beep st _ _ _ _ Hh E1 E2 E3 E4 E5).
  eexists. split; reflexivity.
Qed.

Lemma run_in_call_messages (beep : option pystr) (sid : pystr)
    (body : list json) :
  Forall (fun ev => in_call sid ev = true) body →
  ∀ st, ∃ tr, run beep st body = Ok tr
    ∧ messages_of (tr_sessions tr) (KStr sid)
      = messages_of st (KStr sid) ++ kept (omap (utterance sid) body).
Proof.
  induction 1 as [|ev body Hev _ IH]; intros st.
  - eexists. split; [reflexivity|]. cbn [tr_sessions omap].
    change (kept []) with (@nil pystr). rewrite app_nil_r. reflexivity.
  - destruct (in_call_messages_step beep st ev sid Hev) as (out & Ho & Hm).
    destruct (IH (out_sessions out)) as (tr & Hr & Hm').
    cbn [run mbind result_bind]. rewrite Ho. cbn [mbind result_bind].
    rewrite Hr. cbn [mbind result_bind].
    eexists. split; [reflexivity|]. cbn [tr_sessions].
    rewrite Hm', Hm, <- app_assoc, <- kept_app. do 2 f_equal.
    cbn [omap list_omap]. destruct (utterance sid ev); reflexivity.
Qed.

(** X17: once a session is thanked, what the caller says afterwards
    is stored but never sent. Along any further events of the call
    other than session_start and session_end (well typed, with strings
    that can be printed), every utterance is appended to the record,
    trimmed and unless blank, and nothing is sent; and the session_end
    that follows sends nothing either and removes the record, messages
    included. *)
Theorem messages_after_thanks_are_not_sent (beep : option pystr)
    (st : gmap pykey session_data) (sid : pystr)
    (body : list json) (closing : json) :
  thanked_of st (KStr sid) = true →
  Forall (fun ev => in_call sid ev = true) body →
  event_is (py "session_end") sid closing = true →
  (∃ tr, run beep st body = Ok tr
     ∧ tr_notified tr = []
     ∧ messages_of (tr_sessions tr) (KStr sid)
       = messages_of st (KStr sid) ++ kept (omap (utterance sid) body))
  ∧ ∃ tr, run beep st (body ++ [closing]) = Ok tr
      ∧ tr_notified tr = []
      ∧ tr_sessions tr !! KStr sid = None.
Proof.
  intros Hst Hbody Hend.
  destruct (run_in_call beep sid body Hbody st) as (tr1 & H1 & Hcase).
  destruct Hcase as [[Hn Ht] | (Hf & _)]; [|congruence].
  split.
  - destruct (run_in_call_messages beep sid body Hbody st)
      as (tr2 & H2 & Hm).
    rewrite H1 in H2. injection H2 as <-. exists tr1. auto.
  - pose proof (session_end_step beep (tr_sessions tr1) closing sid Hend)
      as H2.
    rewrite Ht, Hst in H2.
    assert (H2' : run beep (tr_sessions tr1) [closing]
                  = Ok (mk_trace (delete (KStr sid) (tr_sessions tr1))
                          [None] [])).
    { cbn [run mbind result_bind]. rewrite H2. reflexivity. }
    rewrite (run_app_ok _ _ _ _ _ _ H1 H2').
    eexists. split; [reflexivity|]. cbn [tr_notified tr_sessions].
    rewrite Hn, lookup_delete_eq. auto.
Qed.

Lemma messages_after_thanks_are_not_sent_witness :
  (∃ tr,
     run BEEP thanked_store [ev_speak "s1" " Noch etwas "; ev_timeout "s1"]
     = Ok tr
     ∧ tr_notified tr = []
     ∧ messages_of (tr_sessions tr) (KStr (py "s1"))
       = messages_of thanked_store (KStr (py "s1"))
         ++ kept (omap (utterance (py "s1"))
                    [ev_speak "s1" " Noch etwas "; ev_timeout "s1"]))
  ∧ ∃ tr,
      run BEEP thanked_store
        ([ev_speak "s1" " Noch etwas "; ev_timeout "s1"] ++ [ev_end "s1"])
      = Ok tr
      ∧ tr_notified tr = []
      ∧ tr_sessions tr !! KStr (py "s1") = None.
Proof.
  apply (messages_after_thanks_are_not_sent BEEP thanked_store (py "s1")).
  - vm_compute; reflexivity.
  - repeat (constructor; [vm_compute; reflexivity|]). constructor.
  - vm_compute; reflexivity.
Defined.

(** ** The summary determines the messages *)

Lemma line_split (x y r1 r2 : pystr) :
  one_line x → one_line y →
  (r1 = [] ∨ ∃ t, r1 = 10%N :: t) →
  (r2 = [] ∨ ∃ t, r2 = 10%N :: t) →
  x ++ r1 = y ++ r2 →
  x = y ∧ r1 = r2.
Proof.
  unfold one_line. revert y.
  induction x as [|c x IH]; intros [|c' y] Hx Hy H1 H2 Heq; cbn in Heq.
  - auto.
  - exfalso. destruct H1 as [->|[t ->]]; [discriminate|].
    injection Heq as <- _. apply Hy. left.
  - exfalso. destruct H2 as [->|[t ->]]; [discriminate|].
    injection Heq as -> _. apply Hx. left.
  - injection Heq as -> Heq.
    destruct (IH y) as [-> ->]; auto.
    + intros Hin. apply Hx. right. exact Hin.
    + intros Hin. apply Hy. right. exact Hin.
Qed.

Lemma join_cons2 (sep p q : pystr) (rest : list pystr) :
  join sep (p :: q :: rest) = p ++ sep ++ join sep (q :: rest).
Proof. reflexivity. Qed.

Lemma join_lines_inj (a b : list pystr) :
  Forall one_line a → Forall one_line b →
  a ≠ [] → b ≠ [] →
  join [10%N] a = join [10%N] b → a = b.
Proof.
  intros Ha. revert b.
  induction Ha as [|x a Hx Ha IH]; intros b Hb Hna Hnb Heq; [done|].
  destruct Hb as [|y b Hy Hb]; [done|].
  destruct a as [|x2 a]; destruct b as [|y2 b].
  - cbn in Heq. congruence.
  - rewrite join_cons2 in Heq. cbn [join] in Heq.
    rewrite <- (app_nil_r x) in Heq.
    destruct (line_split x y [] ([10%N] ++ join [10%N] (y2 :: b)))
      as [_ Hr]; auto; [right; eexists; reflexivity|discriminate].
  - rewrite join_cons2 in Heq. cbn [join] in Heq.
    rewrite <- (app_nil_r y) in Heq.
    destruct (line_split x y ([10%N] ++ join [10%N] (x2 :: a)) [])
      as [_ Hr]; auto; [right; eexists; reflexivity|discriminate].
  - rewrite !join_cons2 in Heq.
    destruct (line_split x y ([10%N] ++ join [10%N] (x2 :: a))
                ([10%N] ++ join [10%N] (y2 :: b)))
      as [-> Hr]; auto; try (right; eexists; reflexivity).
    injection Hr as Hr. f_equal. apply IH; auto; discriminate.
Qed.

Lemma bullet_one_line (m : pystr) : one_line m → one_line (py "  > " ++ m).
Proof.
  unfold one_line. intros Hm Hin. apply elem_of_app in Hin as [Hin|Hin];
    [|exact (Hm Hin)].
  change (py "  > ") with [32%N; 32%N; 62%N; 32%N] in Hin.
  repeat (apply elem_of_cons in Hin as [Hin|Hin]; [discriminate|]).
  apply elem_of_nil in Hin. exact Hin.
Qed.

Lemma msg_text_bullets (m : pystr) (rest : list pystr) :
  ∃ r, msg_text (m :: rest) = 32%N :: 32%N :: 62%N :: r.
Proof.
  unfold msg_text. cbn [nonempty map].
  change (py "  > ") with [32%N; 32%N; 62%N; 32%N].
  destruct rest; cbn; eexists; reflexivity.
Qed.

(** X18: the message part of the summary determines the message
    list: two lists of messages without line breaks that are rendered
    alike are equal, and no such list is rendered like the empty one
    (the no-message marker). *)
Theorem msg_text_injective (a b : list pystr) :
  Forall one_line a → Forall one_line b →
  msg_text a = msg_text b → a = b.
Proof.
  intros Ha Hb Heq.
  assert (Hmark : ∃ r, NO_MESSAGE = 32%N :: 32%N :: 40%N :: r)
    by (eexists; vm_compute; reflexivity).
  destruct Hmark as [r0 Hmark].
  destruct a as [|m a]; destruct b as [|m' b]; [reflexivity| | |].
  - exfalso. destruct (msg_text_bullets m' b) as [r Hr].
    rewrite Hr in Heq. unfold msg_text in Heq. cbn [nonempty] in Heq.
    rewrite Hmark in Heq. discriminate.
  - exfalso. destruct (msg_text_bullets m a) as [r Hr].
    rewrite Hr in Heq. unfold msg_text in Heq. cbn [nonempty] in Heq.
    rewrite Hmark in Heq. discriminate.
  - unfold msg_text in Heq. cbn [nonempty] in Heq.
    apply join_lines_inj in Heq.
    + revert Heq. generalize (m :: a) (m' :: b). clear.
      induction l as [|x l IH]; intros [|y l']; cbn; try discriminate;
        [reflexivity|].
      intros [= -> Hl]. f_equal. apply IH, Hl.
    + apply Forall_map. eapply Forall_impl; [exact Ha|].
      intros x Hx. apply bullet_one_line, Hx.
    + apply Forall_map. eapply Forall_impl; [exact Hb|].
      intros x Hx. apply bullet_one_line, Hx.
    + discriminate.
    + discriminate.
Qed.

Lemma msg_text_injective_witness :
  [py "Hallo"; py "hier ist Anna"] = kept [py " Hallo"; py "hier ist Anna  "].
Proof.
  apply (msg_text_injective [py "Hallo"; py "hier ist Anna"]
           (kept [py " Hallo"; py "hier ist Anna  "])).
  - repeat (constructor;
            [apply (bool_decide_unpack _); vm_compute; exact I|]).
    constructor.
  - change (kept [py " Hallo"; py "hier ist Anna  "])
      with [py "Hallo"; py "hier ist Anna"].
    repeat (constructor;
            [apply (bool_decide_unpack _); vm_compute; exact I|]).
    constructor.
  - vm_compute; reflexivity.
Defined.
